(** * GitHub Relationship Analyzer: a shallow embedding of [github_analyzer.py]

    The development follows the source file top to bottom:

    - [validate_username]: the regular expression of [GitHubAnalyzer.validate_username];
    - the HTTP collaborator ([requests.Session.get], [raise_for_status],
      [response.json]) as a deterministic server answering from the history
      of requests;
    - a small state-and-exception monad for the methods of the class
      ([_get_paginated_data], [get_followers], [get_following],
      [find_non_followers], [find_fans]);
    - [save_to_file] over a finite map of files, with the fragment of the
      [json] standard module it calls;
    - [display_results] and [main] over the lines of the standard input
      and the lines shown on the terminal.

    Python strings are [string] (code points 0..255), Python lists are
    [list], [None]-or-list attributes are [option (list _)]. *)

From Stdlib Require Import String Ascii ZArith Lia Btauto.
From stdpp Require Import base option list strings gmap.

Local Open Scope string_scope.
Local Open Scope Z_scope.
Local Open Scope list_scope.

(** ** The HTTP collaborator *)

(** One element of the JSON array served by the listing endpoint.  The
    source only reads the [login] key ([user['login']]); [id] stands for the
    other keys of the object. *)
Record user := { login : string; id : Z }.

(** [session.get(url, params={'per_page': .., 'page': ..})]. *)
Record request := { url : string; per_page : Z; page : Z }.

(** What came back: a status code and the body, [None] when the body is not
    parseable JSON ([response.json()] raises). *)
Record response := { status_code : Z; body : option (list user) }.

(** [session.get] either delivers a response or raises a transport
    exception (connection error, timeout). *)
Inductive reply :=
  | Delivered (r : response)
  | TransportFailure.

(** The exceptions the class meets.  [HTTPError] carries the status code
    of the response it was raised for ([e.response.status_code]);
    [ConnectionError] stands for every transport exception of
    [session.get]. *)
Inductive exn :=
  | HTTPError (status : Z)
  | ConnectionError
  | JSONDecodeError
  | IOError
  | ValueError.

(** Lines written to the terminal, one constructor per [print] call of the
    class (the colour codes and the formatting of the exception text are
    left out). *)
Inductive message :=
  | MsgUserNotFound (username : string)
      (* "Error: User '{self.username}' not found on GitHub." *)
  | MsgHTTPError (status : Z)
      (* "An HTTP error occurred: {e}" *)
  | MsgFetchingFollowers (username : string)
      (* "Fetching followers for {self.username}..." *)
  | MsgFetchingFollowing (username : string)
      (* "Fetching users {self.username} is following..." *)
  | MsgUnsupportedFormat (file_format : string)
      (* "Unsupported file format: {file_format}" *)
  | MsgSaved (full_filename : string)
      (* "Successfully saved list to {full_filename}" *)
  | MsgSaveError (full_filename : string).
      (* "Error saving file: {e}" *)

#[global] Instance user_eq_dec : EqDecision user.
Proof. solve_decision. Defined.
#[global] Instance request_eq_dec : EqDecision request.
Proof. solve_decision. Defined.
#[global] Instance message_eq_dec : EqDecision message.
Proof. solve_decision. Defined.

(** ** The object and the world around it *)

(** The attributes of a [GitHubAnalyzer] instance.  [_followers] and
    [_following] start as [None]. *)
Record GitHubAnalyzer := {
  username : string;
  _followers : option (list string);
  _following : option (list string)
}.

(** The program state: the object, the requests sent so far (oldest first),
    the terminal, and the files on disk with the paths that cannot be opened
    for writing. *)
Record state := {
  self : GitHubAnalyzer;
  sent : list request;
  console : list message;
  files : gmap string string;
  unwritable : gset string
}.

Definition set_self (f : GitHubAnalyzer → GitHubAnalyzer) (st : state) : state :=
  {| self := f (self st); sent := sent st; console := console st;
     files := files st; unwritable := unwritable st |}.

Definition set_sent (f : list request → list request) (st : state) : state :=
  {| self := self st; sent := f (sent st); console := console st;
     files := files st; unwritable := unwritable st |}.

Definition set_console (f : list message → list message) (st : state) : state :=
  {| self := self st; sent := sent st; console := f (console st);
     files := files st; unwritable := unwritable st |}.

Definition set_files (f : gmap string string → gmap string string) (st : state) : state :=
  {| self := self st; sent := sent st; console := console st;
     files := f (files st); unwritable := unwritable st |}.

(** ** A state and exception monad *)

(** How a call ends: it returns a value, an exception leaves it, or the
    loop budget ran out before it ended ([while True] need not stop). *)
Inductive outcome (A : Type) :=
  | Returned (a : A)
  | Raised (e : exn)
  | OutOfFuel.
Arguments Returned {A} a.
Arguments Raised {A} e.
Arguments OutOfFuel {A}.

Definition M (A : Type) : Type := state → outcome A * state.

Definition ret {A} (a : A) : M A := λ st, (Returned a, st).

Definition bind {A B} (m : M A) (k : A → M B) : M B :=
  λ st, match m st with
        | (Returned a, st') => k a st'
        | (Raised e, st') => (Raised e, st')
        | (OutOfFuel, st') => (OutOfFuel, st')
        end.

Definition raise {A} (e : exn) : M A := λ st, (Raised e, st).
Definition out_of_fuel {A} : M A := λ st, (OutOfFuel, st).
Definition get_self : M GitHubAnalyzer := λ st, (Returned (self st), st).
Definition modify (f : state → state) : M unit := λ st, (Returned tt, f st).
Definition print (m : message) : M unit := modify (set_console (λ c, c ++ [m])).

(** [try: body except ...: handler]: [handler e] is [None] for an exception
    that no [except] clause names, which then goes on to the caller. *)
Definition try_except {A} (body : M A) (handler : exn → option (M A)) : M A :=
  λ st, match body st with
        | (Raised e, st') =>
            match handler e with
            | Some h => h st'
            | None => (Raised e, st')
            end
        | r => r
        end.

Notation "'let!' x ':=' m 'in' k" := (bind m (λ x, k))
  (at level 10, x name, m at level 100, k at level 200, only parsing).
Notation "m ';;' k" := (bind m (λ _, k))
  (at level 100, k at level 200, right associativity, only parsing).

(** ** [GitHubAnalyzer.validate_username] *)

Definition code (c : ascii) : nat := nat_of_ascii c.

(** The character class [[a-zA-Z0-9]]. *)
Definition is_alnum (c : ascii) : bool :=
  ((97 <=? code c) && (code c <=? 122) ||
   (65 <=? code c) && (code c <=? 90) ||
   (48 <=? code c) && (code c <=? 57))%nat.

Definition is_hyphen (c : ascii) : bool := (code c =? 45)%nat.
Definition is_newline (c : ascii) : bool := (code c =? 10)%nat.

(** The lookahead [(?=[a-zA-Z0-9])]: the next character exists and is in
    the class; nothing is consumed. *)
Definition lookahead_alnum (s : string) : bool :=
  match s with
  | String c _ => is_alnum c
  | EmptyString => false
  end.

(** [$] without [re.MULTILINE]: the end of the string, or just before a
    newline that is the last character of the string. *)
Definition at_dollar (s : string) : bool :=
  match s with
  | EmptyString => true
  | String c EmptyString => is_newline c
  | _ => false
  end.

(** One round of the group [(?:[a-zA-Z0-9]|-(?=[a-zA-Z0-9]))]: what is left
    of the input after it, if it matches. *)
Definition group (s : string) : option string :=
  match s with
  | String c rest =>
      if is_alnum c then Some rest
      else if is_hyphen c && lookahead_alnum rest then Some rest
      else None
  | EmptyString => None
  end.

(** [(?:...){0,n}$] by backtracking: one more round of the group first,
    and when the rest fails after it, [$] here. *)
Fixpoint group_upto_then_dollar (n : nat) (s : string) : bool :=
  match n with
  | O => at_dollar s
  | S n' =>
      match group s with
      | Some rest => group_upto_then_dollar n' rest || at_dollar s
      | None => at_dollar s
      end
  end.

(** [re.match(r'^[a-zA-Z0-9](?:[a-zA-Z0-9]|-(?=[a-zA-Z0-9])){0,38}$', username)],
    as the truth value of its result (a match object or [None]). *)
Definition validate_username (username : string) : bool :=
  match username with
  | String c rest => is_alnum c && group_upto_then_dollar 38 rest
  | EmptyString => false
  end.

(** ** [GitHubAnalyzer] *)

Definition API_URL : string := "https://api.github.com".

(** [GitHubAnalyzer(username)]: the constructor. *)
Definition __init__ (username : string) : outcome GitHubAnalyzer :=
  if negb (validate_username username) then Raised ValueError
  else Returned {| username := username; _followers := None; _following := None |}.

(** The list comprehensions of the two reconciliation methods. *)
Definition non_followers_of (following followers : list string) : list string :=
  filter (λ user, user ∉ followers) following.

Definition fans_of (following followers : list string) : list string :=
  filter (λ user, user ∉ following) followers.

(** [self._followers = value] and [self._following = value]. *)
Definition set_followers (value : list string) (o : GitHubAnalyzer) : GitHubAnalyzer :=
  {| username := username o; _followers := Some value; _following := _following o |}.

Definition set_following (value : list string) (o : GitHubAnalyzer) : GitHubAnalyzer :=
  {| username := username o; _followers := _followers o; _following := Some value |}.

(** [f"/users/{self.username}/followers"] and [f"/users/{self.username}/following"]. *)
Definition followers_endpoint (username : string) : string :=
  "/users/" +:+ username +:+ "/followers".

Definition following_endpoint (username : string) : string :=
  "/users/" +:+ username +:+ "/following".

(** How one pass through the body of [while True] ends. *)
Inductive loop_exit :=
  | Break
  | NextPass (results : list user) (page : Z)
  | ReturnNone.

(** [url = f"{self.API_URL}{endpoint}"] with
    [params = {'per_page': 100, 'page': page}]. *)
Definition page_request (endpoint : string) (page : Z) : request :=
  {| url := API_URL +:+ endpoint; per_page := 100; page := page |}.

Section Analyzer.

(** The remote side: the reply to a request given the requests that
    preceded it. *)
Variable server : list request → request → reply.

(** [self.session.get(url, params=params)]: the request is recorded, the
    server's reply comes back or the transport exception is raised. *)
Definition session_get (rq : request) : M response :=
  λ st, let st' := set_sent (λ l, l ++ [rq]) st in
        match server (sent st) rq with
        | Delivered r => (Returned r, st')
        | TransportFailure => (Raised ConnectionError, st')
        end.

(** [response.raise_for_status()]: [HTTPError] for 4xx and 5xx. *)
Definition raise_for_status (r : response) : M unit :=
  if bool_decide (400 ≤ status_code r < 600)
  then raise (HTTPError (status_code r))
  else ret tt.

(** [response.json()]. *)
Definition response_json (r : response) : M (list user) :=
  match body r with
  | Some data => ret data
  | None => raise JSONDecodeError
  end.

(** The two [print] calls of the [except] clause. *)
Definition http_error_message (username : string) (status : Z) : message :=
  if bool_decide (status = 404) then MsgUserNotFound username
  else MsgHTTPError status.

(** The [while True] loop of [_get_paginated_data], with the local
    variables [results] and [page] as arguments.  [None] is the failure
    value of the source. *)
Fixpoint paginate (fuel : nat) (endpoint : string)
    (results : list user) (page : Z) : M (option (list user)) :=
  match fuel with
  | O => out_of_fuel
  | S fuel' =>
      let! exit := try_except
        (let! response := session_get (page_request endpoint page) in
         raise_for_status response ;;
         let! data := response_json response in
         match data with
         | [] => ret Break
         | _ => ret (NextPass (results ++ data) (page + 1))
         end)
        (λ e, match e with
              | HTTPError status =>
                  Some (let! me := get_self in
                        print (http_error_message (username me) status) ;;
                        ret ReturnNone)
              | _ => None
              end) in
      match exit with
      | Break => ret (Some results)
      | NextPass results page => paginate fuel' endpoint results page
      | ReturnNone => ret None
      end
  end.

Definition _get_paginated_data (fuel : nat) (endpoint : string)
    : M (option (list user)) :=
  paginate fuel endpoint [] 1.

Definition get_followers (fuel : nat) : M (option (list string)) :=
  let! me := get_self in
  (match _followers me with
   | None =>
       print (MsgFetchingFollowers (username me)) ;;
       let! data := _get_paginated_data fuel (followers_endpoint (username me)) in
       match data with
       | Some data => modify (set_self (set_followers (login <$> data)))
       | None => modify (set_self (set_followers []))
       end
   | Some _ => ret tt
   end) ;;
  let! me := get_self in
  ret (_followers me).

Definition get_following (fuel : nat) : M (option (list string)) :=
  let! me := get_self in
  (match _following me with
   | None =>
       print (MsgFetchingFollowing (username me)) ;;
       let! data := _get_paginated_data fuel (following_endpoint (username me)) in
       match data with
       | Some data => modify (set_self (set_following (login <$> data)))
       | None => modify (set_self (set_following []))
       end
   | Some _ => ret tt
   end) ;;
  let! me := get_self in
  ret (_following me).

Definition find_non_followers (fuel : nat) : M (list string) :=
  let! following := get_following fuel in
  let! followers := get_followers fuel in
  match following, followers with
  | Some following, Some followers => ret (non_followers_of following followers)
  | _, _ => ret []
  end.

Definition find_fans (fuel : nat) : M (list string) :=
  let! following := get_following fuel in
  let! followers := get_followers fuel in
  match following, followers with
  | Some following, Some followers => ret (fans_of following followers)
  | _, _ => ret []
  end.

End Analyzer.

(** ** The fragment of the [json] standard module used by [save_to_file]

    [json.dump(data, f, indent=4)] on a list of strings, and the reader
    [json.loads] on arrays of strings, after the library's encoder and
    decoder ([json.encoder], [json.decoder]). *)

Definition quote_char : ascii := ascii_of_nat 34.
Definition backslash_char : ascii := ascii_of_nat 92.
Definition newline_char : ascii := ascii_of_nat 10.

(** One lower-case hexadecimal digit, as ['{0:04x}'.format] prints it. *)
Definition hex_digit (n : nat) : ascii :=
  (if n <? 10 then ascii_of_nat (48 + n) else ascii_of_nat (87 + n))%nat.

(** [ESCAPE_DCT] with the fallback of [py_encode_basestring_ascii]: what a
    character becomes inside a JSON string under [ensure_ascii=True]. *)
Definition escape_ascii (c : ascii) : string :=
  let n := code c in
  (if n =? 34 then String backslash_char (String quote_char "")
   else if n =? 92 then String backslash_char (String backslash_char "")
   else if n =? 8 then String backslash_char "b"
   else if n =? 12 then String backslash_char "f"
   else if n =? 10 then String backslash_char "n"
   else if n =? 13 then String backslash_char "r"
   else if n =? 9 then String backslash_char "t"
   else if (32 <=? n) && (n <=? 126) then String c ""
   else String backslash_char
          (String "u" (String "0" (String "0"
             (String (hex_digit (n / 16)) (String (hex_digit (n mod 16)) ""))))))%nat.

Fixpoint escape_all (s : string) : string :=
  match s with
  | EmptyString => ""
  | String c rest => escape_ascii c +:+ escape_all rest
  end.

Definition py_encode_basestring_ascii (s : string) : string :=
  String quote_char (escape_all s +:+ String quote_char "").

(** The chunks [_iterencode_list] yields after the first element, with
    [separator = ',' + newline_indent]. *)
Fixpoint iterencode_rest (newline_indent : string) (lst : list string) : string :=
  match lst with
  | [] => ""
  | value :: lst' =>
      "," +:+ newline_indent +:+ py_encode_basestring_ascii value
          +:+ iterencode_rest newline_indent lst'
  end.

(** [_iterencode_list] at nesting level 0 with [indent=4]. *)
Definition iterencode_list (lst : list string) : string :=
  let newline_indent := String newline_char "    " in
  match lst with
  | [] => "[]"
  | value :: lst' =>
      "[" +:+ newline_indent +:+ py_encode_basestring_ascii value
          +:+ iterencode_rest newline_indent lst'
          +:+ String newline_char "" +:+ "]"
  end.

(** [WHITESPACE = [ \t\n\r]*]. *)
Definition is_json_whitespace (c : ascii) : bool :=
  ((code c =? 32) || (code c =? 9) || (code c =? 10) || (code c =? 13))%nat.

Fixpoint skip_whitespace (s : string) : string :=
  match s with
  | String c rest => if is_json_whitespace c then skip_whitespace rest else s
  | EmptyString => ""
  end.

(** The value of one hexadecimal digit of a [\uXXXX] escape. *)
Definition hex_value (c : ascii) : option nat :=
  let n := code c in
  (if (48 <=? n) && (n <=? 57) then Some (n - 48)
   else if (97 <=? n) && (n <=? 102) then Some (n - 87)
   else if (65 <=? n) && (n <=? 70) then Some (n - 55)
   else None)%nat.

(** [BACKSLASH]: the one-letter escapes. *)
Definition BACKSLASH (c : ascii) : option ascii :=
  let n := code c in
  (if n =? 34 then Some quote_char
   else if n =? 92 then Some backslash_char
   else if n =? 47 then Some (ascii_of_nat 47)
   else if n =? 98 then Some (ascii_of_nat 8)
   else if n =? 102 then Some (ascii_of_nat 12)
   else if n =? 110 then Some (ascii_of_nat 10)
   else if n =? 114 then Some (ascii_of_nat 13)
   else if n =? 116 then Some (ascii_of_nat 9)
   else None)%nat.

(** [scanstring(s, end, strict=True)], from just after the opening quote:
    the decoded string and the input after the closing quote.  A code point
    above 255 has no counterpart in [string] and is refused. *)
Fixpoint scanstring (s : string) : option (string * string) :=
  match s with
  | EmptyString => None
  | String c rest =>
      if (code c =? 34)%nat then Some ("", rest)
      else if (code c =? 92)%nat then
        match rest with
        | EmptyString => None
        | String esc rest1 =>
            if (code esc =? 117)%nat then
              match rest1 with
              | String h1 (String h2 (String h3 (String h4 rest2))) =>
                  match hex_value h1, hex_value h2, hex_value h3, hex_value h4 with
                  | Some d1, Some d2, Some d3, Some d4 =>
                      if ((d1 =? 0) && (d2 =? 0))%nat then
                        match scanstring rest2 with
                        | Some (v, rest3) =>
                            Some (String (ascii_of_nat (16 * d3 + d4)) v, rest3)
                        | None => None
                        end
                      else None
                  | _, _, _, _ => None
                  end
              | _ => None
              end
            else
              match BACKSLASH esc with
              | Some char =>
                  match scanstring rest1 with
                  | Some (v, rest2) => Some (String char v, rest2)
                  | None => None
                  end
              | None => None
              end
        end
      else if (code c <? 32)%nat then None
      else
        match scanstring rest with
        | Some (v, rest1) => Some (String c v, rest1)
        | None => None
        end
  end.

(** The loop of [JSONArray] from the start of a value; only string values
    are read.  Every pass consumes input, so the length of the input
    bounds the passes. *)
Fixpoint array_values (passes : nat) (s : string) (values : list string)
    : option (list string * string) :=
  match passes with
  | O => None
  | S passes' =>
      match s with
      | String c rest =>
          if (code c =? 34)%nat then
            match scanstring rest with
            | Some (value, rest1) =>
                match skip_whitespace rest1 with
                | String d rest2 =>
                    if (code d =? 93)%nat then Some (values ++ [value], rest2)
                    else if (code d =? 44)%nat
                    then array_values passes' (skip_whitespace rest2) (values ++ [value])
                    else None
                | EmptyString => None
                end
            | None => None
            end
          else None
      | EmptyString => None
      end
  end.

(** [JSONArray], from just after the opening bracket. *)
Definition JSONArray (s : string) : option (list string * string) :=
  match skip_whitespace s with
  | EmptyString => None
  | String c rest as s' =>
      if (code c =? 93)%nat then Some ([], rest)
      else array_values (String.length s') s' []
  end.

(** [json.loads]: leading whitespace, the array, trailing whitespace, and
    nothing else. *)
Definition json_loads (s : string) : option (list string) :=
  match skip_whitespace s with
  | String c rest =>
      if (code c =? 91)%nat then
        match JSONArray rest with
        | Some (values, rest1) =>
            match skip_whitespace rest1 with
            | EmptyString => Some values
            | _ => None
            end
        | None => None
        end
      else None
  | EmptyString => None
  end.

(** ** [GitHubAnalyzer.save_to_file] *)

(** [open(path, 'w')]: the file is created or truncated, or [IOError]. *)
Definition open_w (path : string) : M unit :=
  λ st, if bool_decide (path ∈ unwritable st)
        then (Raised IOError, st)
        else (Returned tt, set_files (λ fs, <[path := ""]> fs) st).

(** [f.write(text)] on the file opened at [path]. *)
Definition write (path text : string) : M unit :=
  modify (set_files (λ fs, <[path := default "" (fs !! path) +:+ text]> fs)).

Fixpoint for_each {A} (l : list A) (body : A → M unit) : M unit :=
  match l with
  | [] => ret tt
  | x :: l' => body x ;; for_each l' body
  end.

Section SaveToFile.

(** The line [csv.writer(f).writerow(row)] writes, terminator included
    (the [csv] module's quoting rules are not restated). *)
Variable csv_writerow : list string → string.

Definition save_to_file (data : list string) (filename file_format : string)
    : M unit :=
  let full_filename := filename +:+ "." +:+ file_format in
  try_except
    (let! unsupported :=
       if bool_decide (file_format = "txt") then
         open_w full_filename ;;
         for_each data (λ item, write full_filename (item +:+ String newline_char "")) ;;
         ret false
       else if bool_decide (file_format = "csv") then
         open_w full_filename ;;
         write full_filename (csv_writerow ["username"]) ;;
         for_each data (λ item, write full_filename (csv_writerow [item])) ;;
         ret false
       else if bool_decide (file_format = "json") then
         open_w full_filename ;;
         write full_filename (iterencode_list data) ;;
         ret false
       else
         print (MsgUnsupportedFormat file_format) ;;
         ret true in
     if unsupported then ret tt
     else print (MsgSaved full_filename))
    (λ e, match e with
          | IOError => Some (print (MsgSaveError full_filename))
          | _ => None
          end).

End SaveToFile.

(** ** The command line: [display_results] and [main] *)

(** What the terminal shows, one constructor per [print] call of the two
    functions and per prompt of [input]; [ClassLine] is a line printed
    inside the class. *)
Inductive cli_line :=
  | ClassLine (m : message)
  | LineAllGood
      (* "All good! No users found in this category." *)
  | LineHeader (title : string) (count : nat)
      (* "\n--- {title} ({len(user_list)}) ---" *)
  | LineUser (user : string)
      (* "  - {user}" *)
  | LineFooter
      (* "------------------------\n" *)
  | LineWelcome
      (* "Welcome to the GitHub Relationship Analyzer!" *)
  | LinePrompt (prompt : string)
      (* the prompt of an [input] call *)
  | LineInvalidUsername
      (* "Invalid GitHub username. Please try again." *)
  | LineInitError (username : string)
      (* "Error: {e}" *)
  | LineMenuQuestion
      (* "\nWhat would you like to do?" *)
  | LineMenu1
      (* "  1. Find users you follow who DON'T follow you back" *)
  | LineMenu2
      (* "  2. Find users who follow you that you DON'T follow back (Fans)" *)
  | LineMenu3
      (* "  3. Exit" *)
  | LineGoodbye
      (* "Goodbye!" *)
  | LineInvalidChoice.
      (* "Invalid choice. Please enter a number between 1 and 3." *)

(** How [main] ends: it returns, an exception of the class leaves it,
    [input] finds the standard input at its end ([EOFError]), or a fetch
    ran out of its loop budget. *)
Inductive main_end :=
  | MainReturned
  | MainRaised (e : exn)
  | MainEOFError
  | MainOutOfFuel.

Definition display_results (user_list : list string) (title : string) : list cli_line :=
  match user_list with
  | [] => [LineAllGood]
  | _ :: _ =>
      [LineHeader title (length user_list)]
        ++ (LineUser <$> user_list)
        ++ [LineFooter]
  end.

(** [str.lower] on the code points 0..255: the letters A-Z and the
    capital letters of Latin-1 (192..222 except the multiplication sign
    215) move up by 32. *)
Definition lower_char (c : ascii) : ascii :=
  let n := code c in
  (if (65 <=? n) && (n <=? 90)
      || (192 <=? n) && (n <=? 214)
      || (216 <=? n) && (n <=? 222)
   then ascii_of_nat (n + 32) else c)%nat.

Fixpoint lower (s : string) : string :=
  match s with
  | EmptyString => ""
  | String c rest => String (lower_char c) (lower rest)
  end.

(** The lines a call of the class added to the terminal. *)
Definition printed_since (st st' : state) : list cli_line :=
  ClassLine <$> drop (length (console st)) (console st').

(** The first [while True] of [main]: the accepted username, if the input
    holds one, the input left and the terminal. *)
Fixpoint username_loop (stdin : list string) (terminal : list cli_line)
    : option string * list string * list cli_line :=
  let terminal := terminal ++ [LinePrompt "Enter your GitHub username: "] in
  match stdin with
  | [] => (None, [], terminal)
  | username :: stdin =>
      if validate_username username then (Some username, stdin, terminal)
      else username_loop stdin (terminal ++ [LineInvalidUsername])
  end.

Section Main.

Variable server : list request → request → reply.
Variable csv_writerow : list string → string.

(** The second [while True] of [main]; every pass reads at least one line
    of input. *)
Fixpoint menu_loop (fuel : nat) (username : string) (stdin : list string)
    (st : state) (terminal : list cli_line) {struct stdin}
    : main_end * state * list cli_line :=
  let terminal :=
    terminal ++ [LineMenuQuestion; LineMenu1; LineMenu2; LineMenu3;
                 LinePrompt "Enter your choice (1-3): "] in
  match stdin with
  | [] => (MainEOFError, st, terminal)
  | choice :: stdin =>
      if bool_decide (choice = "1") then
        match find_non_followers server fuel st with
        | (Returned non_followers, st1) =>
            let terminal :=
              terminal ++ printed_since st st1
                ++ display_results non_followers "Users Who Don't Follow You Back" in
            match non_followers with
            | [] => menu_loop fuel username stdin st1 terminal
            | _ :: _ =>
                let terminal :=
                  terminal ++ [LinePrompt "Save this list to a file? (y/n): "] in
                match stdin with
                | [] => (MainEOFError, st1, terminal)
                | answer :: stdin =>
                    if bool_decide (lower answer = "y") then
                      let terminal :=
                        terminal ++ [LinePrompt "Enter format (txt, csv, json): "] in
                      match stdin with
                      | [] => (MainEOFError, st1, terminal)
                      | fmt :: stdin =>
                          match save_to_file csv_writerow non_followers
                                  (username +:+ "_non_followers") (lower fmt) st1 with
                          | (Returned _, st2) =>
                              menu_loop fuel username stdin st2
                                (terminal ++ printed_since st1 st2)
                          | (Raised e, st2) =>
                              (MainRaised e, st2, terminal ++ printed_since st1 st2)
                          | (OutOfFuel, st2) =>
                              (MainOutOfFuel, st2, terminal ++ printed_since st1 st2)
                          end
                      end
                    else menu_loop fuel username stdin st1 terminal
                end
            end
        | (Raised e, st1) => (MainRaised e, st1, terminal ++ printed_since st st1)
        | (OutOfFuel, st1) => (MainOutOfFuel, st1, terminal ++ printed_since st st1)
        end
      else if bool_decide (choice = "2") then
        match find_fans server fuel st with
        | (Returned fans, st1) =>
            let terminal :=
              terminal ++ printed_since st st1
                ++ display_results fans "Your 'Fans' (You Don't Follow Them Back)" in
            match fans with
            | [] => menu_loop fuel username stdin st1 terminal
            | _ :: _ =>
                let terminal :=
                  terminal ++ [LinePrompt "Save this list to a file? (y/n): "] in
                match stdin with
                | [] => (MainEOFError, st1, terminal)
                | answer :: stdin =>
                    if bool_decide (lower answer = "y") then
                      let terminal :=
                        terminal ++ [LinePrompt "Enter format (txt, csv, json): "] in
                      match stdin with
                      | [] => (MainEOFError, st1, terminal)
                      | fmt :: stdin =>
                          match save_to_file csv_writerow fans
                                  (username +:+ "_fans") (lower fmt) st1 with
                          | (Returned _, st2) =>
                              menu_loop fuel username stdin st2
                                (terminal ++ printed_since st1 st2)
                          | (Raised e, st2) =>
                              (MainRaised e, st2, terminal ++ printed_since st1 st2)
                          | (OutOfFuel, st2) =>
                              (MainOutOfFuel, st2, terminal ++ printed_since st1 st2)
                          end
                      end
                    else menu_loop fuel username stdin st1 terminal
                end
            end
        | (Raised e, st1) => (MainRaised e, st1, terminal ++ printed_since st st1)
        | (OutOfFuel, st1) => (MainOutOfFuel, st1, terminal ++ printed_since st st1)
        end
      else if bool_decide (choice = "3") then
        (MainReturned, st, terminal ++ [LineGoodbye])
      else menu_loop fuel username stdin st (terminal ++ [LineInvalidChoice])
  end.

(** [main()], run on the lines of the standard input in a world [st]
    whose [self] field the constructed analyzer fills. *)
Definition main (fuel : nat) (stdin : list string) (st : state)
    : main_end * state * list cli_line :=
  match username_loop stdin [LineWelcome] with
  | (None, _, terminal) => (MainEOFError, st, terminal)
  | (Some username, stdin, terminal) =>
      match __init__ username with
      | Returned analyzer =>
          menu_loop fuel username stdin (set_self (λ _, analyzer) st) terminal
      | Raised ValueError => (MainReturned, st, terminal ++ [LineInitError username])
      | Raised e => (MainRaised e, st, terminal)
      | OutOfFuel => (MainOutOfFuel, st, terminal)
      end
  end.

End Main.

(** ** Vocabulary of the statements *)

(** The requests of [n] consecutive passes of the loop, from page [first]. *)
Definition page_requests (endpoint : string) (first : Z) (n : nat) : list request :=
  (λ k, page_request endpoint (first + Z.of_nat k)) <$> seq 0 n.

(** The page a reply carries when [raise_for_status] lets it through and
    its body parses. *)
Definition page_of (r : reply) : option (list user) :=
  match r with
  | Delivered r => if bool_decide (400 ≤ status_code r < 600) then None else body r
  | TransportFailure => None
  end.

(** The status of a reply that [raise_for_status] refuses. *)
Definition error_status_of (r : reply) : option Z :=
  match r with
  | Delivered r =>
      if bool_decide (400 ≤ status_code r < 600) then Some (status_code r) else None
  | TransportFailure => None
  end.

(** The server answers the next requests, from page [first] on, with the
    given non-empty pages. *)
Fixpoint answers (server : list request → request → reply) (log : list request)
    (endpoint : string) (first : Z) (pages : list (list user)) : Prop :=
  match pages with
  | [] => True
  | data :: pages' =>
      data ≠ [] ∧
      page_of (server log (page_request endpoint first)) = Some data ∧
      answers server (log ++ [page_request endpoint first]) endpoint (first + 1) pages'
  end.

(** The value a getter stores for what [_get_paginated_data] gave back. *)
Definition cached_value (data : option (list user)) : list string :=
  match data with
  | Some data => login <$> data
  | None => []
  end.

(** The account-identifier grammar in the words of the specification:
    1 to 39 characters, each alphanumeric or a hyphen, no hyphen first or
    last, no two hyphens in a row. *)
Fixpoint all_identifier_chars (s : string) : bool :=
  match s with
  | EmptyString => true
  | String c rest => (is_alnum c || is_hyphen c) && all_identifier_chars rest
  end.

Definition starts_with_hyphen (s : string) : bool :=
  match s with
  | String c _ => is_hyphen c
  | EmptyString => false
  end.

Fixpoint ends_with_hyphen (s : string) : bool :=
  match s with
  | EmptyString => false
  | String c EmptyString => is_hyphen c
  | String _ rest => ends_with_hyphen rest
  end.

Fixpoint no_adjacent_hyphens (s : string) : bool :=
  match s with
  | EmptyString => true
  | String c rest =>
      negb (is_hyphen c && starts_with_hyphen rest) && no_adjacent_hyphens rest
  end.

Definition conforms_to_grammar (s : string) : bool :=
  ((1 <=? String.length s) && (String.length s <=? 39))%nat
  && all_identifier_chars s
  && negb (starts_with_hyphen s)
  && negb (ends_with_hyphen s)
  && no_adjacent_hyphens s.

(** The string without the newline that ends it, if one does. *)
Fixpoint without_final_newline (s : string) : string :=
  match s with
  | EmptyString => ""
  | String c EmptyString => if is_newline c then "" else s
  | String c rest => String c (without_final_newline rest)
  end.

(** The part of the pattern after the first character, without its bound:
    every character is alphanumeric or a hyphen that an alphanumeric
    follows. *)
Fixpoint rounds (s : string) : bool :=
  match s with
  | EmptyString => true
  | String c rest => (is_alnum c || is_hyphen c && lookahead_alnum rest) && rounds rest
  end.

(** The methods of a session that a caller may invoke, each with the loop
    budget it is given, and the state a sequence of such calls leaves. *)
Inductive method :=
  | GetFollowers
  | GetFollowing
  | FindNonFollowers
  | FindFans.

Definition after_call (server : list request → request → reply)
    (st : state) (c : method * nat) : state :=
  match c.1 with
  | GetFollowers => (get_followers server c.2 st).2
  | GetFollowing => (get_following server c.2 st).2
  | FindNonFollowers => (find_non_followers server c.2 st).2
  | FindFans => (find_fans server c.2 st).2
  end.

Definition after_calls (server : list request → request → reply)
    (calls : list (method * nat)) (st : state) : state :=
  foldl (after_call server) st calls.

(** A page request of the session of [username]: 100 per page, page 1 or
    later, to one of its two endpoints. *)
Definition own_request (username : string) (rq : request) : Prop :=
  per_page rq = 100 ∧ 1 ≤ page rq ∧
  (url rq = API_URL +:+ followers_endpoint username ∨
   url rq = API_URL +:+ following_endpoint username).

(** What a call of a method may do to the world: the username and the
    files stay, and the log grows by requests of the session. *)
Definition session_step (st st' : state) : Prop :=
  username (self st') = username (self st) ∧
  files st' = files st ∧ unwritable st' = unwritable st ∧
  ∃ new, sent st' = sent st ++ new ∧ Forall (own_request (username (self st))) new.

(** The pieces written to a file, one after the other. *)
Fixpoint join (pieces : list string) : string :=
  match pieces with
  | [] => ""
  | piece :: pieces' => piece +:+ join pieces'
  end.

(** What [save_to_file] leaves in the file, by format; [None] for a format
    it does not know. *)
Definition file_text (csv_writerow : list string → string)
    (file_format : string) (data : list string) : option string :=
  if bool_decide (file_format = "txt") then
    Some (join ((λ item, item +:+ String newline_char "") <$> data))
  else if bool_decide (file_format = "csv") then
    Some (csv_writerow ["username"] +:+ join ((λ item, csv_writerow [item]) <$> data))
  else if bool_decide (file_format = "json") then
    Some (iterencode_list data)
  else None.

Fixpoint contains_newline (s : string) : bool :=
  match s with
  | EmptyString => false
  | String c rest => is_newline c || contains_newline rest
  end.

Fixpoint string_forall (p : ascii → bool) (s : string) : bool :=
  match s with
  | EmptyString => true
  | String c rest => p c && string_forall p rest
  end.

(** A newline or a printable ASCII character (space to tilde). *)
Definition printable_ascii_or_newline (c : ascii) : bool :=
  (is_newline c || (32 <=? code c) && (code c <=? 126))%nat.

(** The paths [main] saves a report of [username] to. *)
Definition report_file (username path : string) : Prop :=
  ∃ file_format,
    path = (username +:+ "_non_followers") +:+ "." +:+ file_format ∨
    path = (username +:+ "_fans") +:+ "." +:+ file_format.

(** The ways [main] is seen to end. *)
Definition expected_end (e : main_end) : Prop :=
  e = MainReturned ∨ e = MainEOFError ∨ e = MainOutOfFuel ∨
  e = MainRaised ConnectionError ∨ e = MainRaised JSONDecodeError.

(** A line other than the one of the [except ValueError] clause. *)
Definition not_init_error (l : cli_line) : Prop := ∀ username, l ≠ LineInitError username.

(** What a stretch of [main] may do to the world, for the session of
    [username]. *)
Definition cli_step (username0 : string) (st st' : state) : Prop :=
  username (self st') = username (self st) ∧
  unwritable st' = unwritable st ∧
  (∃ new, sent st' = sent st ++ new ∧ Forall (own_request username0) new) ∧
  (∀ path, files st' !! path = files st !! path ∨ report_file username0 path).

(** What a run [r] of the menu loop from [st], on the input [stdin] and
    with [terminal] already shown, is seen to do. *)
Definition menu_ok (username0 : string) (stdin : list string)
    (st : state) (terminal : list cli_line)
    (r : main_end * state * list cli_line) : Prop :=
  cli_step username0 st r.1.2 ∧
  expected_end r.1.1 ∧
  (∃ more, r.2 = terminal ++ more ∧ Forall not_init_error more ∧
           (r.1.1 = MainReturned → last more = Some LineGoodbye)) ∧
  (Forall (λ answer, lower answer ≠ "y") stdin → files r.1.2 = files st).

(** ** Test doubles *)

(** A freshly constructed session in an empty world. *)
Definition new_session (username : string) : state :=
  {| self := {| username := username; _followers := None; _following := None |};
     sent := []; console := []; files := ∅; unwritable := ∅ |}.

Definition ok_page (data : list user) : reply :=
  Delivered {| status_code := 200; body := Some data |}.

Definition error_page (status : Z) : reply :=
  Delivered {| status_code := status; body := None |}.

(** A stubbed endpoint: the n-th request of the session gets the n-th
    scripted reply, and an empty page once the script is over. *)
Definition stub (script : list reply) : list request → request → reply :=
  λ log _, nth (length log) script (ok_page []).

Definition account (name : string) : user := {| login := name; id := 0 |}.

(** [n] accounts numbered from [start]. *)
Definition accounts (start : nat) (n : nat) : list user :=
  (λ k, {| login := String (ascii_of_nat (k mod 256)) ""; id := Z.of_nat k |})
    <$> seq start n.

(** * Properties *)

(** ** Records and the monad *)

Lemma set_sent_app l1 l2 st :
  set_sent (λ l, l ++ l2) (set_sent (λ l, l ++ l1) st) = set_sent (λ l, l ++ l1 ++ l2) st.
Proof. unfold set_sent; simpl. by rewrite (assoc_L (++)). Qed.

Lemma set_sent_nil st : set_sent (λ l, l ++ []) st = st.
Proof. destruct st; unfold set_sent; simpl. by rewrite (right_id_L [] (++)). Qed.

(** ** Pagination *)

Lemma page_requests_0 endpoint first : page_requests endpoint first 0 = [].
Proof. reflexivity. Qed.

Lemma page_requests_S endpoint first n :
  page_requests endpoint first (S n)
  = page_request endpoint first :: page_requests endpoint (first + 1) n.
Proof.
  unfold page_requests. rewrite <- cons_seq, <- fmap_S_seq. simpl.
  rewrite Z.add_0_r. f_equal. rewrite <- list_fmap_compose.
  apply list_fmap_ext. intros _ k _. simpl. f_equal. lia.
Qed.

Lemma page_requests_snoc endpoint first n :
  page_requests endpoint first (S n)
  = page_requests endpoint first n ++ [page_request endpoint (first + Z.of_nat n)].
Proof. unfold page_requests. by rewrite seq_S, fmap_app. Qed.

Section Pagination.

Variable server : list request → request → reply.

(** One pass of the loop, by the reply to its request. *)
Lemma paginate_S fuel endpoint results page st :
  paginate server (S fuel) endpoint results page st =
  let st1 := set_sent (λ l, l ++ [page_request endpoint page]) st in
  match server (sent st) (page_request endpoint page) with
  | TransportFailure => (Raised ConnectionError, st1)
  | Delivered r =>
      if bool_decide (400 ≤ status_code r < 600) then
        (Returned None,
         set_console (λ c, c ++ [http_error_message (username (self st)) (status_code r)]) st1)
      else
        match body r with
        | None => (Raised JSONDecodeError, st1)
        | Some [] => (Returned (Some results), st1)
        | Some data => paginate server fuel endpoint (results ++ data) (page + 1) st1
        end
  end.
Proof.
  cbn [paginate]. unfold bind, try_except, session_get, raise_for_status, response_json.
  destruct (server (sent st) (page_request endpoint page)) as [r|]; [|done].
  destruct (bool_decide (400 ≤ status_code r < 600)); [done|].
  unfold ret, raise. destruct (body r) as [[|u data]|]; done.
Qed.

(** The passes that receive non-empty pages only accumulate them. *)
Lemma paginate_pages pages fuel endpoint results page st :
  answers server (sent st) endpoint page pages →
  paginate server (length pages + fuel) endpoint results page st
  = paginate server fuel endpoint (results ++ concat pages)
      (page + Z.of_nat (length pages))
      (set_sent (λ l, l ++ page_requests endpoint page (length pages)) st).
Proof.
  revert results page st.
  induction pages as [|data pages IH]; intros results page st Hans.
  - simpl. rewrite Z.add_0_r, (right_id_L [] (++)), page_requests_0.
    by rewrite set_sent_nil.
  - destruct Hans as (Hne & Hpage & Hans).
    change (length (data :: pages) + fuel)%nat with (S (length pages + fuel)).
    rewrite paginate_S. cbv zeta.
    destruct (server (sent st) (page_request endpoint page)) as [r|]; [|done].
    simpl in Hpage.
    destruct (bool_decide (400 ≤ status_code r < 600)); [done|].
    rewrite Hpage. destruct data as [|u data]; [done|].
    rewrite IH by done.
    cbn [length concat].
    rewrite set_sent_app, page_requests_S, (assoc_L (++)).
    f_equal. lia.
Qed.

(** How a fetch ends, by the reply to the request that follows the
    non-empty pages. *)
Section LastReply.

Variables (pages : list (list user)) (fuel : nat) (endpoint : string).
Variables (results : list user) (page : Z) (st : state).
Hypothesis Hanswers : answers server (sent st) endpoint page pages.
Hypothesis Hfuel : (length pages < fuel)%nat.

Local Lemma paginate_last :
  paginate server fuel endpoint results page st
  = paginate server (S (fuel - S (length pages))) endpoint
      (results ++ concat pages) (page + Z.of_nat (length pages))
      (set_sent (λ l, l ++ page_requests endpoint page (length pages)) st).
Proof.
  rewrite <- paginate_pages by done. f_equal. lia.
Qed.

Lemma paginate_empty_page :
  page_of (server (sent st ++ page_requests endpoint page (length pages))
            (page_request endpoint (page + Z.of_nat (length pages)))) = Some [] →
  paginate server fuel endpoint results page st
  = (Returned (Some (results ++ concat pages)),
     set_sent (λ l, l ++ page_requests endpoint page (S (length pages))) st).
Proof.
  intros Hlast.
  rewrite paginate_last, paginate_S. cbv zeta. cbn [sent set_sent].
  rewrite set_sent_app, <- page_requests_snoc.
  destruct (server _ _) as [r|]; [|done]. simpl in Hlast.
  destruct (bool_decide (400 ≤ status_code r < 600)); [done|].
  by rewrite Hlast.
Qed.

Lemma paginate_http_error status :
  error_status_of
    (server (sent st ++ page_requests endpoint page (length pages))
       (page_request endpoint (page + Z.of_nat (length pages)))) = Some status →
  paginate server fuel endpoint results page st
  = (Returned None,
     set_console (λ c, c ++ [http_error_message (username (self st)) status])
       (set_sent (λ l, l ++ page_requests endpoint page (S (length pages))) st)).
Proof.
  intros Hlast.
  rewrite paginate_last, paginate_S. cbv zeta. cbn [sent set_sent self].
  rewrite set_sent_app, <- page_requests_snoc.
  destruct (server _ _) as [r|]; [|done]. simpl in Hlast.
  destruct (bool_decide (400 ≤ status_code r < 600)); [|done].
  by simplify_eq.
Qed.

Lemma paginate_transport_failure :
  server (sent st ++ page_requests endpoint page (length pages))
    (page_request endpoint (page + Z.of_nat (length pages))) = TransportFailure →
  paginate server fuel endpoint results page st
  = (Raised ConnectionError,
     set_sent (λ l, l ++ page_requests endpoint page (S (length pages))) st).
Proof.
  intros Hlast.
  rewrite paginate_last, paginate_S. cbv zeta. cbn [sent set_sent].
  by rewrite set_sent_app, <- page_requests_snoc, Hlast.
Qed.

Lemma paginate_unparseable_body r :
  server (sent st ++ page_requests endpoint page (length pages))
    (page_request endpoint (page + Z.of_nat (length pages))) = Delivered r →
  ¬ (400 ≤ status_code r < 600) →
  body r = None →
  paginate server fuel endpoint results page st
  = (Raised JSONDecodeError,
     set_sent (λ l, l ++ page_requests endpoint page (S (length pages))) st).
Proof.
  intros Hlast Hstatus Hbody.
  rewrite paginate_last, paginate_S. cbv zeta. cbn [sent set_sent].
  rewrite set_sent_app, <- page_requests_snoc, Hlast.
  by rewrite bool_decide_false, Hbody.
Qed.

End LastReply.

End Pagination.

(** ** The cached getters *)

Section Getters.

Variable server : list request → request → reply.

(** The loop writes to the request log and to the terminal only. *)
Lemma paginate_frame fuel endpoint results page st :
  let st' := (paginate server fuel endpoint results page st).2 in
  self st' = self st ∧ files st' = files st ∧ unwritable st' = unwritable st.
Proof.
  revert results page st. induction fuel as [|fuel IH]; intros results page st.
  - done.
  - rewrite paginate_S. cbv zeta.
    destruct (server _ _) as [r|]; [|done].
    destruct (bool_decide _); [done|].
    destruct (body r) as [[|u data]|]; [done| |done].
    apply (IH _ _ (set_sent _ st)).
Qed.

Lemma get_followers_cached fuel st l :
  _followers (self st) = Some l →
  get_followers server fuel st = (Returned (Some l), st).
Proof.
  intros H. unfold get_followers, bind, get_self, ret. cbv beta iota.
  rewrite H. cbv beta iota. by rewrite H.
Qed.

Lemma get_following_cached fuel st l :
  _following (self st) = Some l →
  get_following server fuel st = (Returned (Some l), st).
Proof.
  intros H. unfold get_following, bind, get_self, ret. cbv beta iota.
  rewrite H. cbv beta iota. by rewrite H.
Qed.

Lemma get_followers_uncached fuel st :
  _followers (self st) = None →
  get_followers server fuel st =
  match _get_paginated_data server fuel (followers_endpoint (username (self st)))
          (set_console (λ c, c ++ [MsgFetchingFollowers (username (self st))]) st) with
  | (Returned data, st') =>
      (Returned (Some (cached_value data)),
       set_self (set_followers (cached_value data)) st')
  | (Raised e, st') => (Raised e, st')
  | (OutOfFuel, st') => (OutOfFuel, st')
  end.
Proof.
  intros H. unfold get_followers, bind, get_self, ret, print, modify.
  cbv beta iota. rewrite H. cbn [self set_console].
  destruct (_get_paginated_data _ _ _ _) as [[[data|]|e|] st']; done.
Qed.

Lemma get_following_uncached fuel st :
  _following (self st) = None →
  get_following server fuel st =
  match _get_paginated_data server fuel (following_endpoint (username (self st)))
          (set_console (λ c, c ++ [MsgFetchingFollowing (username (self st))]) st) with
  | (Returned data, st') =>
      (Returned (Some (cached_value data)),
       set_self (set_following (cached_value data)) st')
  | (Raised e, st') => (Raised e, st')
  | (OutOfFuel, st') => (OutOfFuel, st')
  end.
Proof.
  intros H. unfold get_following, bind, get_self, ret, print, modify.
  cbv beta iota. rewrite H. cbn [self set_console].
  destruct (_get_paginated_data _ _ _ _) as [[[data|]|e|] st']; done.
Qed.

(** A getter that returns gives a list and leaves it in the cache. *)
Lemma get_followers_returned fuel st v st' :
  get_followers server fuel st = (Returned v, st') →
  ∃ l, v = Some l ∧ _followers (self st') = Some l.
Proof.
  destruct (_followers (self st)) as [l|] eqn:Hc.
  - rewrite (get_followers_cached _ _ l) by done. intros [= <- <-]. eauto.
  - rewrite get_followers_uncached by done.
    destruct (_get_paginated_data _ _ _ _) as [[data|e|] st1]; [|done..].
    intros [= <- <-]. eauto.
Qed.

Lemma get_following_returned fuel st v st' :
  get_following server fuel st = (Returned v, st') →
  ∃ l, v = Some l ∧ _following (self st') = Some l.
Proof.
  destruct (_following (self st)) as [l|] eqn:Hc.
  - rewrite (get_following_cached _ _ l) by done. intros [= <- <-]. eauto.
  - rewrite get_following_uncached by done.
    destruct (_get_paginated_data _ _ _ _) as [[data|e|] st1]; [|done..].
    intros [= <- <-]. eauto.
Qed.

(** A filled slot is never written again, whichever getter runs. *)
Lemma get_followers_keeps fuel st :
  let st' := (get_followers server fuel st).2 in
  (∀ l, _followers (self st) = Some l → _followers (self st') = Some l) ∧
  (∀ l, _following (self st) = Some l → _following (self st') = Some l).
Proof.
  destruct (_followers (self st)) as [l|] eqn:Hc.
  - rewrite (get_followers_cached _ _ l) by done. simpl. by rewrite Hc.
  - rewrite get_followers_uncached by done. unfold _get_paginated_data.
    pose proof (paginate_frame fuel (followers_endpoint (username (self st))) [] 1
      (set_console (λ c, c ++ [MsgFetchingFollowers (username (self st))]) st))
      as (Hself & _).
    destruct (paginate _ _ _ _ _ _) as [[data|e|] st1]; simpl in *;
      rewrite Hself, ?Hc; done.
Qed.

Lemma get_following_keeps fuel st :
  let st' := (get_following server fuel st).2 in
  (∀ l, _followers (self st) = Some l → _followers (self st') = Some l) ∧
  (∀ l, _following (self st) = Some l → _following (self st') = Some l).
Proof.
  destruct (_following (self st)) as [l|] eqn:Hc.
  - rewrite (get_following_cached _ _ l) by done. simpl. by rewrite Hc.
  - rewrite get_following_uncached by done. unfold _get_paginated_data.
    pose proof (paginate_frame fuel (following_endpoint (username (self st))) [] 1
      (set_console (λ c, c ++ [MsgFetchingFollowing (username (self st))]) st))
      as (Hself & _).
    destruct (paginate _ _ _ _ _ _) as [[data|e|] st1]; simpl in *;
      rewrite Hself, ?Hc; done.
Qed.

End Getters.

(** ** Reconciliation *)

Section Filter.

Context {A : Type} (P : A → Prop) `{!∀ x, Decision (P x)}.

(** [filter P l] is the greatest sublist of [l] whose elements satisfy [P]. *)
Lemma filter_greatest_sublist (k l : list A) :
  k `sublist_of` l → Forall P k → k `sublist_of` filter P l.
Proof.
  induction 1 as [|x k l Hkl IH|x k l Hkl IH]; intros HP.
  - done.
  - apply Forall_cons in HP as [Hx HP].
    rewrite filter_cons_True by done. apply sublist_skip; auto.
  - rewrite filter_cons. case_decide; [apply sublist_cons|]; auto.
Qed.

Lemma filter_none (l : list A) : Forall (λ x, ¬ P x) l → filter P l = [].
Proof.
  induction 1 as [|x l Hx _ IH]; [done|]. by rewrite filter_cons_False.
Qed.

End Filter.

(** What the comprehension [[x for x in l if x not in l']] computes: the
    elements of [l] outside [l'], no other, in the order of [l], each as
    often as [l] has it. *)
Lemma difference_spec (l l' : list string) :
  let d := filter (λ x, x ∉ l') l in
  (∀ x, x ∈ d ↔ x ∈ l ∧ x ∉ l') ∧
  d `sublist_of` l ∧
  (∀ k, k `sublist_of` l → Forall (λ x, x ∉ l') k → k `sublist_of` d).
Proof.
  split_and!.
  - intros x. rewrite list_elem_of_filter. tauto.
  - apply sublist_filter.
  - intros k. apply filter_greatest_sublist.
Qed.

Lemma difference_self (l : list string) : filter (λ x, x ∉ l) l = [].
Proof. apply filter_none, Forall_forall. tauto. Qed.

Section Reconciliation.

Variable server : list request → request → reply.

(** Both methods run the two getters, [get_following] first, and then
    filter what the getters returned. *)
Lemma find_after_getters fuel st following st1 followers st2 :
  get_following server fuel st = (Returned (Some following), st1) →
  get_followers server fuel st1 = (Returned (Some followers), st2) →
  find_non_followers server fuel st
    = (Returned (non_followers_of following followers), st2) ∧
  find_fans server fuel st = (Returned (fans_of following followers), st2).
Proof.
  intros H1 H2. unfold find_non_followers, find_fans, bind.
  by rewrite H1, H2.
Qed.

(** C1.  For every pair of fetched lists, [find_non_followers] returns
    exactly the identifiers of [following] that are absent from
    [followers], in the order of [following], and [find_fans] returns
    exactly the identifiers of [followers] that are absent from
    [following], in the order of [followers]: each result is the greatest
    sublist of its source that avoids the other list.  In particular
    following = [a,b,c] and followers = [b,c,d] give [a] and [d], and equal
    lists as well as two empty lists give two empty results. *)
Theorem reconciliation_exact fuel st following st1 followers st2 :
  get_following server fuel st = (Returned (Some following), st1) →
  get_followers server fuel st1 = (Returned (Some followers), st2) →
  ∃ non_followers fans,
    find_non_followers server fuel st = (Returned non_followers, st2) ∧
    find_fans server fuel st = (Returned fans, st2) ∧
    (∀ x, x ∈ non_followers ↔ x ∈ following ∧ x ∉ followers) ∧
    non_followers `sublist_of` following ∧
    (∀ k, k `sublist_of` following → Forall (λ x, x ∉ followers) k →
          k `sublist_of` non_followers) ∧
    (∀ x, x ∈ fans ↔ x ∈ followers ∧ x ∉ following) ∧
    fans `sublist_of` followers ∧
    (∀ k, k `sublist_of` followers → Forall (λ x, x ∉ following) k →
          k `sublist_of` fans) ∧
    (following = ["a"; "b"; "c"] → followers = ["b"; "c"; "d"] →
       non_followers = ["a"] ∧ fans = ["d"]) ∧
    (following = followers → non_followers = [] ∧ fans = []) ∧
    (following = [] → followers = [] → non_followers = [] ∧ fans = []).
Proof.
  intros H1 H2.
  destruct (find_after_getters _ _ _ _ _ _ H1 H2) as [Hnf Hfans].
  exists (non_followers_of following followers), (fans_of following followers).
  destruct (difference_spec following followers) as (Hn1 & Hn2 & Hn3).
  destruct (difference_spec followers following) as (Hf1 & Hf2 & Hf3).
  split_and!; try done.
  - by intros -> ->.
  - intros ->. unfold non_followers_of, fans_of. by rewrite difference_self.
  - by intros -> ->.
Qed.

End Reconciliation.

Lemma reconciliation_exact_witness :
  let server := stub [ok_page (account <$> ["a"; "b"; "c"]); ok_page [];
                      ok_page (account <$> ["b"; "c"; "d"]); ok_page []] in
  (find_non_followers server 2 (new_session "octocat")).1 = Returned ["a"] ∧
  (find_fans server 2 (new_session "octocat")).1 = Returned ["d"].
Proof.
  intros server.
  destruct (reconciliation_exact server 2 (new_session "octocat")
              ["a"; "b"; "c"]
              (get_following server 2 (new_session "octocat")).2
              ["b"; "c"; "d"]
              (find_fans server 2 (new_session "octocat")).2)
    as (nf & fans & -> & -> & _ & _ & _ & _ & _ & _ & Hex & _).
  - vm_compute. reflexivity.
  - vm_compute. reflexivity.
  - destruct Hex as [-> ->]; [reflexivity..|]. split; reflexivity.
Defined.

(** ** The cache over the lifetime of a session *)

Section Lifetime.

Variable server : list request → request → reply.

Lemma find_keeps fuel st :
  let keeps (st' : state) :=
    (∀ l, _followers (self st) = Some l → _followers (self st') = Some l) ∧
    (∀ l, _following (self st) = Some l → _following (self st') = Some l) in
  keeps (find_non_followers server fuel st).2 ∧ keeps (find_fans server fuel st).2.
Proof.
  cbv zeta. unfold find_non_followers, find_fans, bind.
  pose proof (get_following_keeps server fuel st) as [Ha1 Ha2].
  destruct (get_following server fuel st) as [[following|e|] st1];
    simpl in Ha1, Ha2; [|done..].
  pose proof (get_followers_keeps server fuel st1) as [Hb1 Hb2].
  destruct (get_followers server fuel st1) as [[followers|e|] st2];
    simpl in Hb1, Hb2;
    [destruct following, followers|..]; simpl; naive_solver.
Qed.

Lemma after_call_keeps st c :
  let st' := after_call server st c in
  (∀ l, _followers (self st) = Some l → _followers (self st') = Some l) ∧
  (∀ l, _following (self st) = Some l → _following (self st') = Some l).
Proof.
  destruct c as [[] fuel]; unfold after_call; cbn [fst snd].
  - apply get_followers_keeps.
  - apply get_following_keeps.
  - apply find_keeps.
  - apply find_keeps.
Qed.

Lemma after_calls_keeps calls st :
  let st' := after_calls server calls st in
  (∀ l, _followers (self st) = Some l → _followers (self st') = Some l) ∧
  (∀ l, _following (self st) = Some l → _following (self st') = Some l).
Proof.
  revert st. induction calls as [|c calls IH]; intros st; [done|].
  cbv zeta. unfold after_calls. cbn [foldl].
  destruct (after_call_keeps st c) as [H1 H2].
  destruct (IH (after_call server st c)) as [H3 H4].
  split; intros l Hl; [apply H3, H1, Hl | apply H4, H2, Hl].
Qed.

(** C7.  Once a getter has returned, its result sits in the cache for the
    rest of the session: after any further calls of the session's methods,
    the same getter returns the same list and leaves the whole state, the
    log of requests included, as it found it. *)
Theorem fetch_cached_for_session fuel st v st' :
  (get_followers server fuel st = (Returned v, st') →
   ∃ l, v = Some l ∧
     ∀ calls fuel',
       let st'' := after_calls server calls st' in
       get_followers server fuel' st'' = (Returned (Some l), st'')) ∧
  (get_following server fuel st = (Returned v, st') →
   ∃ l, v = Some l ∧
     ∀ calls fuel',
       let st'' := after_calls server calls st' in
       get_following server fuel' st'' = (Returned (Some l), st'')).
Proof.
  split; intros Hget.
  - destruct (get_followers_returned _ _ _ _ _ Hget) as (l & -> & Hl).
    exists l. split; [done|]. intros calls fuel' st''.
    apply get_followers_cached, after_calls_keeps, Hl.
  - destruct (get_following_returned _ _ _ _ _ Hget) as (l & -> & Hl).
    exists l. split; [done|]. intros calls fuel' st''.
    apply get_following_cached, after_calls_keeps, Hl.
Qed.

(** C10.  Whatever the state and the server, a getter that returns gives a
    list, never [None]; so when either reconciliation method reaches its
    test [following is None or followers is None], both values are lists
    and the method goes on to the comprehension. *)
Theorem getters_never_return_None fuel st :
  (get_followers server fuel st).1 ≠ Returned None ∧
  (get_following server fuel st).1 ≠ Returned None ∧
  (∀ following st1 followers st2,
     get_following server fuel st = (Returned following, st1) →
     get_followers server fuel st1 = (Returned followers, st2) →
     ∃ l1 l2, following = Some l1 ∧ followers = Some l2 ∧
       find_non_followers server fuel st = (Returned (non_followers_of l1 l2), st2) ∧
       find_fans server fuel st = (Returned (fans_of l1 l2), st2)).
Proof.
  split_and!.
  - destruct (get_followers server fuel st) as [o st'] eqn:Hget.
    simpl. intros ->. by destruct (get_followers_returned _ _ _ _ _ Hget) as (l & ? & _).
  - destruct (get_following server fuel st) as [o st'] eqn:Hget.
    simpl. intros ->. by destruct (get_following_returned _ _ _ _ _ Hget) as (l & ? & _).
  - intros following st1 followers st2 H1 H2.
    destruct (get_following_returned _ _ _ _ _ H1) as (l1 & -> & _).
    destruct (get_followers_returned _ _ _ _ _ H2) as (l2 & -> & _).
    exists l1, l2. split_and!; [done..| |];
      by eapply find_after_getters.
Qed.

End Lifetime.

Lemma fetch_cached_for_session_witness :
  let server := stub [ok_page (account <$> ["a"; "b"]); ok_page [];
                      ok_page (account <$> ["c"]); ok_page []] in
  let st' := (get_followers server 2 (new_session "octocat")).2 in
  let st'' := after_calls server [(GetFollowing, 2%nat); (FindFans, 2%nat)] st' in
  get_followers server 7 st'' = (Returned (Some ["a"; "b"]), st'') ∧
  length (sent st'') = 4%nat.
Proof.
  intros server st' st''.
  destruct (proj1 (fetch_cached_for_session server 2 (new_session "octocat")
                     (Some ["a"; "b"]) st'))
    as (l & Hl & Hcalls).
  - vm_compute. reflexivity.
  - injection Hl as <-. split; [apply Hcalls | vm_compute; reflexivity].
Defined.

Lemma getters_never_return_None_witness :
  let server := stub [ok_page (account <$> ["a"; "b"]); ok_page [];
                      error_page 500] in
  ∃ st2, find_non_followers server 2 (new_session "octocat")
         = (Returned (non_followers_of ["a"; "b"] []), st2).
Proof.
  intros server.
  destruct (proj2 (proj2 (getters_never_return_None server 2 (new_session "octocat")))
              (Some ["a"; "b"]) (get_following server 2 (new_session "octocat")).2
              (Some []) (find_fans server 2 (new_session "octocat")).2)
    as (l1 & l2 & H1 & H2 & Hnf & _).
  - vm_compute. reflexivity.
  - vm_compute. reflexivity.
  - injection H1 as <-. injection H2 as <-. eexists. apply Hnf.
Defined.

(** ** The shape of a difference result *)

(** C8, as stated, fails: the result of [find_fans] is not ordered after
    the following list (its elements are not even there), and a result
    repeats what its source list repeats. *)
Lemma difference_result_counterexample :
  ¬ (fans_of ["a"; "b"; "c"] ["b"; "c"; "d"] `sublist_of` ["a"; "b"; "c"]) ∧
  ¬ NoDup (non_followers_of ["a"; "a"] ["b"]).
Proof.
  split.
  - intros H. assert ("d" ∈ ["a"; "b"; "c"]) as Hd.
    { eapply elem_of_sublist; [|exact H]. vm_compute. left. }
    repeat (apply elem_of_cons in Hd as [Hd|Hd]; [discriminate Hd|]).
    by apply elem_of_nil in Hd.
  - intros H. apply NoDup_cons in H as [H _]. apply H. vm_compute. left.
Qed.

(** C8, amended.  Each difference result is a sublist of its own source:
    the following list for non-followers, the followers list for fans (the
    fetch order, nothing is sorted); and it has no duplicates when that
    source has none. *)
Theorem difference_result_shape (following followers : list string) :
  non_followers_of following followers `sublist_of` following ∧
  fans_of following followers `sublist_of` followers ∧
  (NoDup following → NoDup (non_followers_of following followers)) ∧
  (NoDup followers → NoDup (fans_of following followers)).
Proof.
  unfold non_followers_of, fans_of.
  split_and!; auto using sublist_filter, NoDup_filter.
Qed.

Lemma difference_result_shape_witness :
  NoDup (non_followers_of ["a"; "b"; "c"] ["b"; "c"; "d"]) ∧
  NoDup (fans_of ["a"; "b"; "c"] ["b"; "c"; "d"]).
Proof.
  destruct (difference_result_shape ["a"; "b"; "c"] ["b"; "c"; "d"])
    as (_ & _ & H1 & H2).
  split; [apply H1 | apply H2];
    apply (bool_decide_unpack _); vm_compute; exact I.
Defined.

(** ** What a fetch returns *)

Lemma page_requests_lookup endpoint first n k rq :
  page_requests endpoint first n !! k = Some rq →
  url rq = API_URL +:+ endpoint ∧ per_page rq = 100 ∧ page rq = first + Z.of_nat k.
Proof.
  unfold page_requests. rewrite list_lookup_fmap.
  destruct (seq 0 n !! k) as [j|] eqn:Hj; [|done].
  apply lookup_seq in Hj as [-> _]. by intros [= <-].
Qed.

Lemma http_error_message_404 username status :
  http_error_message username status = MsgUserNotFound username ↔ status = 404.
Proof. unfold http_error_message. case_bool_decide; naive_solver. Qed.

Section Fetch.

Variable server : list request → request → reply.

(** C3.  The fetch asks for pages of 100 at page 1, 2, 3, ... of the
    endpoint and stops at the first empty page: when the server answers
    with the non-empty pages [pages] and then an empty one, a budget of
    more than [length pages] passes returns their concatenation after
    exactly [length pages + 1] requests.  Pages of sizes 100, 100, 37, 0
    give 237 items after 4 requests, and an empty first page gives the
    empty list after 1 request. *)
Theorem pagination_until_empty_page endpoint st :
  (∀ pages fuel,
     answers server (sent st) endpoint 1 pages →
     page_of (server (sent st ++ page_requests endpoint 1 (length pages))
                (page_request endpoint (1 + Z.of_nat (length pages)))) = Some [] →
     (length pages < fuel)%nat →
     ∃ st',
       _get_paginated_data server fuel endpoint st = (Returned (Some (concat pages)), st') ∧
       sent st' = sent st ++ page_requests endpoint 1 (S (length pages)) ∧
       (∀ k rq, page_requests endpoint 1 (S (length pages)) !! k = Some rq →
                url rq = API_URL +:+ endpoint ∧ per_page rq = 100 ∧
                page rq = 1 + Z.of_nat k)) ∧
  (∀ p1 p2 p3 fuel,
     length p1 = 100%nat → length p2 = 100%nat → length p3 = 37%nat →
     answers server (sent st) endpoint 1 [p1; p2; p3] →
     page_of (server (sent st ++ page_requests endpoint 1 3)
                (page_request endpoint 4)) = Some [] →
     (4 ≤ fuel)%nat →
     ∃ items st',
       _get_paginated_data server fuel endpoint st = (Returned (Some items), st') ∧
       items = p1 ++ p2 ++ p3 ∧ length items = 237%nat ∧
       sent st' = sent st ++ [page_request endpoint 1; page_request endpoint 2;
                              page_request endpoint 3; page_request endpoint 4]) ∧
  (∀ fuel,
     page_of (server (sent st) (page_request endpoint 1)) = Some [] →
     (1 ≤ fuel)%nat →
     ∃ st',
       _get_paginated_data server fuel endpoint st = (Returned (Some []), st') ∧
       sent st' = sent st ++ [page_request endpoint 1]).
Proof.
  assert (∀ pages fuel,
     answers server (sent st) endpoint 1 pages →
     page_of (server (sent st ++ page_requests endpoint 1 (length pages))
                (page_request endpoint (1 + Z.of_nat (length pages)))) = Some [] →
     (length pages < fuel)%nat →
     _get_paginated_data server fuel endpoint st
     = (Returned (Some (concat pages)),
        set_sent (λ l, l ++ page_requests endpoint 1 (S (length pages))) st))
    as Hgeneral.
  { intros pages fuel Hans Hlast Hfuel. unfold _get_paginated_data.
    by rewrite (paginate_empty_page server pages). }
  split_and!.
  - intros pages fuel Hans Hlast Hfuel. eexists. split_and!.
    + by apply Hgeneral.
    + done.
    + intros k rq. apply page_requests_lookup.
  - intros p1 p2 p3 fuel Hp1 Hp2 Hp3 Hans Hlast Hfuel.
    eexists _, _. split_and!.
    + apply (Hgeneral [p1; p2; p3]); [done|done|simpl; lia].
    + simpl. by rewrite (right_id_L [] (++)).
    + simpl. rewrite (right_id_L [] (++)), !length_app. lia.
    + done.
  - intros fuel Hlast Hfuel. eexists. split.
    + apply (Hgeneral []); [done| |simpl; lia].
      cbn [length]. rewrite page_requests_0, (right_id_L [] (++)). exact Hlast.
    + done.
Qed.

(** A getter whose fetch meets an HTTP error status stores the empty list. *)
Lemma get_followers_http_error st pages fuel status :
  let endpoint := followers_endpoint (username (self st)) in
  _followers (self st) = None →
  answers server (sent st) endpoint 1 pages →
  error_status_of (server (sent st ++ page_requests endpoint 1 (length pages))
                     (page_request endpoint (1 + Z.of_nat (length pages))))
    = Some status →
  (length pages < fuel)%nat →
  get_followers server fuel st
  = (Returned (Some []),
     set_self (set_followers [])
       (set_console (λ c, c ++ [MsgFetchingFollowers (username (self st));
                                http_error_message (username (self st)) status])
          (set_sent (λ l, l ++ page_requests endpoint 1 (S (length pages))) st))).
Proof.
  intros endpoint Hc Hans Hlast Hfuel.
  rewrite get_followers_uncached by done. unfold _get_paginated_data.
  rewrite (paginate_http_error server pages fuel endpoint [] 1
             (set_console _ st) Hans Hfuel status Hlast).
  unfold set_self, set_console, set_sent; simpl.
  by rewrite <- (assoc_L (++)).
Qed.

Lemma get_following_http_error st pages fuel status :
  let endpoint := following_endpoint (username (self st)) in
  _following (self st) = None →
  answers server (sent st) endpoint 1 pages →
  error_status_of (server (sent st ++ page_requests endpoint 1 (length pages))
                     (page_request endpoint (1 + Z.of_nat (length pages))))
    = Some status →
  (length pages < fuel)%nat →
  get_following server fuel st
  = (Returned (Some []),
     set_self (set_following [])
       (set_console (λ c, c ++ [MsgFetchingFollowing (username (self st));
                                http_error_message (username (self st)) status])
          (set_sent (λ l, l ++ page_requests endpoint 1 (S (length pages))) st))).
Proof.
  intros endpoint Hc Hans Hlast Hfuel.
  rewrite get_following_uncached by done. unfold _get_paginated_data.
  rewrite (paginate_http_error server pages fuel endpoint [] 1
             (set_console _ st) Hans Hfuel status Hlast).
  unfold set_self, set_console, set_sent; simpl.
  by rewrite <- (assoc_L (++)).
Qed.

(** A transport exception or an undecodable body leaves the getter as the
    exception it is, and nothing is stored. *)
Lemma get_followers_transport_failure st pages fuel :
  let endpoint := followers_endpoint (username (self st)) in
  _followers (self st) = None →
  answers server (sent st) endpoint 1 pages →
  server (sent st ++ page_requests endpoint 1 (length pages))
    (page_request endpoint (1 + Z.of_nat (length pages))) = TransportFailure →
  (length pages < fuel)%nat →
  ∃ st', get_followers server fuel st = (Raised ConnectionError, st') ∧
         _followers (self st') = None.
Proof.
  intros endpoint Hc Hans Hlast Hfuel.
  rewrite get_followers_uncached by done. unfold _get_paginated_data.
  rewrite (paginate_transport_failure server pages fuel endpoint [] 1
             (set_console _ st) Hans Hfuel Hlast).
  by eexists.
Qed.

Lemma get_followers_unparseable_body st pages fuel r :
  let endpoint := followers_endpoint (username (self st)) in
  _followers (self st) = None →
  answers server (sent st) endpoint 1 pages →
  server (sent st ++ page_requests endpoint 1 (length pages))
    (page_request endpoint (1 + Z.of_nat (length pages))) = Delivered r →
  ¬ (400 ≤ status_code r < 600) →
  body r = None →
  (length pages < fuel)%nat →
  ∃ st', get_followers server fuel st = (Raised JSONDecodeError, st') ∧
         _followers (self st') = None.
Proof.
  intros endpoint Hc Hans Hlast Hstatus Hbody Hfuel.
  rewrite get_followers_uncached by done. unfold _get_paginated_data.
  rewrite (paginate_unparseable_body server pages fuel endpoint [] 1
             (set_console _ st) Hans Hfuel r Hlast Hstatus Hbody).
  by eexists.
Qed.

End Fetch.

Lemma pagination_until_empty_page_witness :
  let p1 := accounts 0 100 in
  let p2 := accounts 100 100 in
  let p3 := accounts 200 37 in
  let server := stub [ok_page p1; ok_page p2; ok_page p3; ok_page []] in
  ∃ st',
    _get_paginated_data server 4 "/users/octocat/followers" (new_session "octocat")
    = (Returned (Some (p1 ++ p2 ++ p3)), st') ∧
    length (p1 ++ p2 ++ p3) = 237%nat ∧
    length (sent st') = 4%nat.
Proof.
  intros p1 p2 p3 server.
  destruct (proj1 (proj2 (pagination_until_empty_page server
                            "/users/octocat/followers" (new_session "octocat")))
              p1 p2 p3 4%nat)
    as (items & st' & Hrun & -> & Hlen & Hsent).
  - vm_compute. reflexivity.
  - vm_compute. reflexivity.
  - vm_compute. reflexivity.
  - vm_compute. repeat split; discriminate.
  - vm_compute. reflexivity.
  - lia.
  - exists st'. split_and!; [exact Hrun | exact Hlen | by rewrite Hsent].
Defined.

Section FetchFailures.

Variable server : list request → request → reply.

(** C4.  When a page request of a fetch is answered with 404, whatever
    non-empty pages came before it, the fetch returns the failure value
    and none of those pages, and reports "user not found", which no other
    status is reported as; the getter then stores and returns the empty
    list. *)
Theorem not_found_fails_whole_fetch st pages fuel :
  let u := username (self st) in
  let not_found_after endpoint :=
    answers server (sent st) endpoint 1 pages ∧
    error_status_of (server (sent st ++ page_requests endpoint 1 (length pages))
                       (page_request endpoint (1 + Z.of_nat (length pages))))
      = Some 404 in
  (length pages < fuel)%nat →
  (∀ endpoint, not_found_after endpoint →
     _get_paginated_data server fuel endpoint st
     = (Returned None,
        set_console (λ c, c ++ [MsgUserNotFound u])
          (set_sent (λ l, l ++ page_requests endpoint 1 (S (length pages))) st))) ∧
  (_followers (self st) = None → not_found_after (followers_endpoint u) →
     ∃ st', get_followers server fuel st = (Returned (Some []), st') ∧
            _followers (self st') = Some [] ∧
            console st' = console st ++ [MsgFetchingFollowers u; MsgUserNotFound u]) ∧
  (_following (self st) = None → not_found_after (following_endpoint u) →
     ∃ st', get_following server fuel st = (Returned (Some []), st') ∧
            _following (self st') = Some [] ∧
            console st' = console st ++ [MsgFetchingFollowing u; MsgUserNotFound u]) ∧
  (∀ status, http_error_message u status = MsgUserNotFound u ↔ status = 404).
Proof.
  intros u not_found_after Hfuel. subst not_found_after. split_and!.
  - intros endpoint [Hans Hlast]. unfold _get_paginated_data.
    by rewrite (paginate_http_error server pages _ _ _ _ _ Hans Hfuel 404 Hlast).
  - intros Hc [Hans Hlast]. eexists. split_and!.
    + by apply (get_followers_http_error server st pages fuel 404).
    + done.
    + done.
  - intros Hc [Hans Hlast]. eexists. split_and!.
    + by apply (get_following_http_error server st pages fuel 404).
    + done.
    + done.
  - apply http_error_message_404.
Qed.

(** C5, amended.  When a page request of a fetch is answered with a 4xx or
    5xx status other than 404, whatever non-empty pages came before it, the
    fetch returns the failure value and none of those pages, and reports
    an HTTP error with that status; the getter returns normally, storing
    and returning the empty list. *)
Theorem http_error_becomes_empty_cache st pages fuel status :
  let u := username (self st) in
  let error_after endpoint :=
    answers server (sent st) endpoint 1 pages ∧
    error_status_of (server (sent st ++ page_requests endpoint 1 (length pages))
                       (page_request endpoint (1 + Z.of_nat (length pages))))
      = Some status in
  status ≠ 404 →
  (length pages < fuel)%nat →
  (∀ endpoint, error_after endpoint →
     400 ≤ status < 600 ∧
     _get_paginated_data server fuel endpoint st
     = (Returned None,
        set_console (λ c, c ++ [MsgHTTPError status])
          (set_sent (λ l, l ++ page_requests endpoint 1 (S (length pages))) st))) ∧
  (_followers (self st) = None → error_after (followers_endpoint u) →
     ∃ st', get_followers server fuel st = (Returned (Some []), st') ∧
            _followers (self st') = Some [] ∧
            console st' = console st ++ [MsgFetchingFollowers u; MsgHTTPError status]) ∧
  (_following (self st) = None → error_after (following_endpoint u) →
     ∃ st', get_following server fuel st = (Returned (Some []), st') ∧
            _following (self st') = Some [] ∧
            console st' = console st ++ [MsgFetchingFollowing u; MsgHTTPError status]).
Proof.
  intros u error_after Hstatus Hfuel. subst u error_after.
  assert (∀ u, http_error_message u status = MsgHTTPError status) as Hmsg.
  { intros u. unfold http_error_message. by rewrite bool_decide_false. }
  split_and!.
  - intros endpoint [Hans Hlast]. split.
    + unfold error_status_of in Hlast. destruct (server _ _) as [r|]; [|done].
      case_bool_decide; [|done]. by simplify_eq.
    + unfold _get_paginated_data.
      rewrite (paginate_http_error server pages _ _ _ _ _ Hans Hfuel status Hlast).
      by rewrite Hmsg.
  - intros Hc [Hans Hlast]. eexists. split_and!.
    + by apply (get_followers_http_error server st pages fuel status).
    + done.
    + cbn [console set_self set_console set_sent]. by rewrite Hmsg.
  - intros Hc [Hans Hlast]. eexists. split_and!.
    + by apply (get_following_http_error server st pages fuel status).
    + done.
    + cbn [console set_self set_console set_sent]. by rewrite Hmsg.
Qed.

End FetchFailures.

Lemma not_found_fails_whole_fetch_witness :
  let server := stub [ok_page (accounts 0 100); error_page 404] in
  ∃ st', get_followers server 2 (new_session "octocat") = (Returned (Some []), st') ∧
         _followers (self st') = Some [] ∧
         console st' = [MsgFetchingFollowers "octocat"; MsgUserNotFound "octocat"].
Proof.
  intros server.
  apply (proj1 (proj2 (not_found_fails_whole_fetch server (new_session "octocat")
                         [accounts 0 100] 2 ltac:(simpl; lia)))).
  - reflexivity.
  - vm_compute. repeat split; discriminate.
Defined.

Lemma http_error_becomes_empty_cache_witness :
  let server := stub [ok_page (accounts 0 100); error_page 503] in
  ∃ st', get_following server 2 (new_session "octocat") = (Returned (Some []), st') ∧
         _following (self st') = Some [] ∧
         console st' = [MsgFetchingFollowing "octocat"; MsgHTTPError 503].
Proof.
  intros server.
  apply (proj2 (proj2 (http_error_becomes_empty_cache server (new_session "octocat")
                         [accounts 0 100] 2 503 ltac:(lia) ltac:(simpl; lia)))).
  - reflexivity.
  - vm_compute. repeat split; discriminate.
Defined.

(** C5, as stated, fails: a transport exception, or a body that is not
    JSON, is not caught anywhere in the class.  The getter, and the
    reconciliation method above it, end with the raw exception, and the
    cache stays unfilled. *)
Lemma uncaught_failure_counterexample :
  let lost := get_followers (stub [TransportFailure]) 1 (new_session "octocat") in
  let garbled :=
    get_followers (stub [Delivered {| status_code := 200; body := None |}]) 1
      (new_session "octocat") in
  lost.1 = Raised ConnectionError ∧ _followers (self lost.2) = None ∧
  garbled.1 = Raised JSONDecodeError ∧ _followers (self garbled.2) = None ∧
  (find_non_followers (stub [TransportFailure]) 1 (new_session "octocat")).1
    = Raised ConnectionError.
Proof. vm_compute. done. Qed.

(** C2: the code at an input where the followers fetch fails.  The
    following list [a] was fetched, the followers request is answered with
    500; [find_non_followers] returns [a], not the empty list.  Likewise
    with a failed following fetch and followers [d], [find_fans] returns
    [d]. *)
Theorem failed_fetch_is_diffed_as_empty :
  let run1 := find_non_followers
                (stub [ok_page [account "a"]; ok_page []; error_page 500]) 2
                (new_session "octocat") in
  let run2 := find_fans
                (stub [error_page 500; ok_page [account "d"]; ok_page []]) 2
                (new_session "octocat") in
  run1.1 = Returned ["a"] ∧
  console run1.2 = [MsgFetchingFollowing "octocat"; MsgFetchingFollowers "octocat";
                    MsgHTTPError 500] ∧
  run2.1 = Returned ["d"] ∧
  console run2.2 = [MsgFetchingFollowing "octocat"; MsgHTTPError 500;
                    MsgFetchingFollowers "octocat"].
Proof. vm_compute. done. Qed.

(** ** The username pattern *)

Ltac char_classes :=
  unfold is_alnum, is_hyphen, is_newline;
  rewrite ?orb_true_iff, ?andb_true_iff, ?Nat.leb_le, ?Nat.eqb_eq, ?Nat.eqb_neq;
  lia.

Lemma is_alnum_not_hyphen c : is_alnum c = true → is_hyphen c = false.
Proof. char_classes. Qed.

Lemma is_alnum_not_newline c : is_alnum c = true → is_newline c = false.
Proof. char_classes. Qed.

Lemma is_hyphen_not_newline c : is_hyphen c = true → is_newline c = false.
Proof. char_classes. Qed.

Lemma group_spec c rest :
  group (String c rest)
  = if is_alnum c || is_hyphen c && lookahead_alnum rest then Some rest else None.
Proof. simpl. by destruct (is_alnum c), (is_hyphen c), (lookahead_alnum rest). Qed.

Lemma group_upto_then_dollar_empty n : group_upto_then_dollar n "" = true.
Proof. by destruct n. Qed.

Lemma lookahead_without_final_newline s :
  lookahead_alnum (without_final_newline s) = lookahead_alnum s.
Proof.
  destruct s as [|d [|e r]]; [done| |done]. simpl.
  destruct (is_newline d) eqn:Hd; [|done]. simpl.
  destruct (is_alnum d) eqn:Ha; [|done].
  apply is_alnum_not_newline in Ha. congruence.
Qed.

Lemma without_final_newline_cons c d r :
  without_final_newline (String c (String d r))
  = String c (without_final_newline (String d r)).
Proof. done. Qed.

(** The bounded repetition followed by [$] accepts exactly the strings
    that, without their final newline, consist of at most [n] rounds. *)
Lemma group_upto_then_dollar_spec n s :
  group_upto_then_dollar n s
  = rounds (without_final_newline s)
    && (String.length (without_final_newline s) <=? n)%nat.
Proof.
  revert s. induction n as [|n IH]; intros s.
  - destruct s as [|c [|d r]]; [done| |].
    + simpl. by destruct (is_newline c); rewrite ?andb_false_r.
    + rewrite without_final_newline_cons. simpl. by rewrite andb_false_r.
  - destruct s as [|c rest]; [done|].
    cbn [group_upto_then_dollar]. rewrite group_spec.
    destruct rest as [|d r].
    + simpl. destruct (is_alnum c) eqn:Ha.
      * rewrite (is_alnum_not_newline c Ha). simpl.
        by rewrite group_upto_then_dollar_empty, Ha.
      * simpl. rewrite andb_false_r.
        destruct (is_newline c); [done|]. simpl. by rewrite Ha, andb_false_r.
    + rewrite without_final_newline_cons. cbn [rounds String.length at_dollar].
      rewrite lookahead_without_final_newline.
      destruct (is_alnum c || is_hyphen c && lookahead_alnum (String d r)).
      * rewrite orb_false_r, IH. done.
      * done.
Qed.

Lemma rounds_spec s :
  rounds s
  = all_identifier_chars s && negb (ends_with_hyphen s) && no_adjacent_hyphens s.
Proof.
  induction s as [|c rest IH]; [done|].
  cbn [rounds all_identifier_chars no_adjacent_hyphens]. rewrite IH.
  destruct rest as [|d r].
  - simpl. destruct (is_alnum c) eqn:Ha; [by rewrite (is_alnum_not_hyphen c Ha)|].
    by destruct (is_hyphen c).
  - change (ends_with_hyphen (String c (String d r)))
      with (ends_with_hyphen (String d r)).
    cbn [lookahead_alnum starts_with_hyphen all_identifier_chars].
    destruct (is_alnum c) eqn:Ha.
    { rewrite (is_alnum_not_hyphen c Ha). simpl.
      by destruct (is_alnum d), (is_hyphen d). }
    destruct (is_hyphen c); [|done]. simpl.
    destruct (is_alnum d) eqn:Hd; [by rewrite (is_alnum_not_hyphen d Hd)|].
    simpl. destruct (is_hyphen d); [|done]. simpl.
    by rewrite !andb_false_r.
Qed.

(** What the pattern accepts: the strings that conform to the grammar once
    a final newline, if there is one, is taken off. *)
Lemma validate_username_spec s :
  validate_username s = conforms_to_grammar (without_final_newline s).
Proof.
  destruct s as [|c rest]; [done|].
  unfold validate_username. rewrite group_upto_then_dollar_spec, rounds_spec.
  destruct rest as [|d r].
  - simpl. destruct (is_alnum c) eqn:Ha.
    + rewrite (is_alnum_not_newline c Ha). unfold conforms_to_grammar. simpl.
      by rewrite Ha, (is_alnum_not_hyphen c Ha).
    + destruct (is_newline c); [done|]. unfold conforms_to_grammar. simpl.
      rewrite Ha. by destruct (is_hyphen c).
  - rewrite without_final_newline_cons.
    set (t := without_final_newline (String d r)).
    unfold conforms_to_grammar.
    cbn [String.length all_identifier_chars starts_with_hyphen no_adjacent_hyphens].
    assert (ends_with_hyphen (String c t)
            = if String.length t =? 0 then is_hyphen c else ends_with_hyphen t)%nat
      as ->. { by destruct t. }
    change (1 <=? S (String.length t))%nat with true.
    change (S (String.length t) <=? 39)%nat with (String.length t <=? 38)%nat.
    destruct (is_alnum c) eqn:Ha; cycle 1.
    { destruct (is_hyphen c), (String.length t <=? 38)%nat,
        (all_identifier_chars t); by rewrite ?andb_false_r. }
    rewrite (is_alnum_not_hyphen c Ha).
    assert ((if String.length t =? 0 then false else ends_with_hyphen t)%nat
            = ends_with_hyphen t) as ->. { by destruct t. }
    simpl. btauto.
Qed.

(** The constructor refuses what the pattern refuses, and otherwise gives
    a session with both slots empty. *)
Lemma init_spec username :
  __init__ username
  = if validate_username username
    then Returned (self (new_session username))
    else Raised ValueError.
Proof. unfold __init__. by destruct (validate_username username). Qed.

(** C6: the code at a username that ends in a newline.  The pattern
    accepts it, at 8 and at 40 characters, while the grammar (alphanumeric
    characters and hyphens, at most 39 of them) excludes it. *)
Theorem validate_username_accepts_final_newline :
  let s := "octocat" +:+ String newline_char "" in
  let long := "aaaaaaaaaaaaaaaaaaaaaaaaaaaaaaaaaaaaaaa" +:+ String newline_char "" in
  validate_username s = true ∧ conforms_to_grammar s = false ∧
  String.length long = 40%nat ∧
  validate_username long = true ∧ conforms_to_grammar long = false.
Proof. vm_compute. done. Qed.

(** ** Strings *)

Lemma append_nil_l (s : string) : "" +:+ s = s.
Proof. reflexivity. Qed.

Lemma append_cons c (s1 s2 : string) : String c s1 +:+ s2 = String c (s1 +:+ s2).
Proof. reflexivity. Qed.

Lemma append_assoc (s1 s2 s3 : string) : (s1 +:+ s2) +:+ s3 = s1 +:+ s2 +:+ s3.
Proof.
  induction s1 as [|c s1 IH]; [done|]. by rewrite !append_cons, IH.
Qed.

Lemma length_append (s1 s2 : string) :
  String.length (s1 +:+ s2) = (String.length s1 + String.length s2)%nat.
Proof.
  induction s1 as [|c s1 IH]; [done|]. rewrite append_cons. simpl. by rewrite IH.
Qed.

(** ** The JSON round trip *)

(** Reading the escape of one character gives the character back. *)
Lemma scanstring_escape_ascii c rest :
  scanstring (escape_ascii c +:+ rest)
  = match scanstring rest with
    | Some (v, rest') => Some (String c v, rest')
    | None => None
    end.
Proof.
  destruct c as [[] [] [] [] [] [] [] []]; reflexivity.
Qed.

Lemma scanstring_escape_all s rest :
  scanstring (escape_all s +:+ String quote_char rest) = Some (s, rest).
Proof.
  induction s as [|c s IH]; [done|].
  cbn [escape_all]. by rewrite append_assoc, scanstring_escape_ascii, IH.
Qed.

Lemma py_encode_basestring_ascii_append s rest :
  py_encode_basestring_ascii s +:+ rest
  = String quote_char (escape_all s +:+ String quote_char rest).
Proof.
  unfold py_encode_basestring_ascii. by rewrite append_cons, append_assoc.
Qed.

Lemma length_iterencode_rest indent l :
  (length l ≤ String.length (iterencode_rest indent l))%nat.
Proof.
  induction l as [|v l IH]; [done|].
  cbn [iterencode_rest length]. rewrite !length_append. simpl. lia.
Qed.

(** One pass of the loop of [JSONArray] over an encoded string. *)
Lemma array_values_S passes value rest values :
  array_values (S passes) (py_encode_basestring_ascii value +:+ rest) values
  = match skip_whitespace rest with
    | String d rest2 =>
        if (code d =? 93)%nat then Some (values ++ [value], rest2)
        else if (code d =? 44)%nat
        then array_values passes (skip_whitespace rest2) (values ++ [value])
        else None
    | EmptyString => None
    end.
Proof.
  rewrite py_encode_basestring_ascii_append.
  cbn [array_values]. change (code quote_char =? 34)%nat with true.
  cbv iota. by rewrite scanstring_escape_all.
Qed.

Lemma skip_whitespace_indent value rest :
  skip_whitespace (String newline_char "    " +:+ py_encode_basestring_ascii value +:+ rest)
  = py_encode_basestring_ascii value +:+ rest.
Proof. by rewrite py_encode_basestring_ascii_append. Qed.

(** The loop of [JSONArray] reads back the elements that
    [_iterencode_list] wrote after the opening bracket and indentation. *)
Lemma array_values_iterencode l passes value values :
  (length l < passes)%nat →
  array_values passes
    (py_encode_basestring_ascii value
       +:+ iterencode_rest (String newline_char "    ") l
       +:+ String newline_char "" +:+ "]")
    values
  = Some (values ++ value :: l, "").
Proof.
  revert passes value values.
  induction l as [|w l IH]; intros passes value values Hpasses;
    (destruct passes as [|passes]; [simpl in Hpasses; lia|]);
    rewrite array_values_S.
  - done.
  - cbn [iterencode_rest]. rewrite !append_assoc.
    change (skip_whitespace ("," +:+ ?s)) with ("," +:+ s).
    rewrite append_cons, append_nil_l.
    change (code "," =? 93)%nat with false.
    change (code "," =? 44)%nat with true. cbv iota.
    rewrite skip_whitespace_indent, IH by (simpl in Hpasses; lia).
    by rewrite <- (assoc_L (++)).
Qed.

(** Reading what [json.dump(data, f, indent=4)] wrote gives [data]. *)
Lemma json_loads_iterencode_list data :
  json_loads (iterencode_list data) = Some data.
Proof.
  destruct data as [|value l]; [done|].
  unfold json_loads, iterencode_list.
  change (skip_whitespace ("[" +:+ ?s)) with ("[" +:+ s).
  rewrite append_cons, append_nil_l.
  change (code "[" =? 91)%nat with true. cbv iota.
  unfold JSONArray. rewrite skip_whitespace_indent.
  rewrite py_encode_basestring_ascii_append.
  change (code quote_char =? 93)%nat with false. cbv iota.
  rewrite <- py_encode_basestring_ascii_append.
  rewrite array_values_iterencode; [done|].
  rewrite !length_append.
  pose proof (length_iterencode_rest (String newline_char "    ") l).
  unfold py_encode_basestring_ascii. simpl. lia.
Qed.

Section SaveJson.

Variable csv_writerow : list string → string.

Lemma save_to_file_json data filename st :
  filename +:+ ".json" ∉ unwritable st →
  save_to_file csv_writerow data filename "json" st
  = (Returned tt,
     set_console (λ c, c ++ [MsgSaved (filename +:+ ".json")])
       (set_files (λ fs, <[filename +:+ ".json" := iterencode_list data]> fs) st)).
Proof.
  intros Hw. unfold save_to_file, try_except, bind, open_w, write, print, modify, ret.
  rewrite !bool_decide_false by done.
  rewrite bool_decide_true by done.
  rewrite bool_decide_false by done.
  cbn [files set_files set_console]. f_equal.
  change ("." +:+ "json") with ".json".
  unfold set_console, set_files. cbn [self sent console files unwritable].
  by rewrite lookup_insert_eq, insert_insert_eq.
Qed.

(** C9.  Saving a list of strings in the [json] format, to a path that can
    be opened for writing, leaves in the file [filename.json] the indented
    JSON array of the strings, and parsing the content of that file gives
    the list back, in order. *)
Theorem json_save_round_trip data filename st :
  filename +:+ ".json" ∉ unwritable st →
  let st' := (save_to_file csv_writerow data filename "json" st).2 in
  files st' !! (filename +:+ ".json") = Some (iterencode_list data) ∧
  (files st' !! (filename +:+ ".json")) ≫= json_loads = Some data.
Proof.
  intros Hw st'. subst st'. rewrite save_to_file_json by done.
  cbn [snd files set_files set_console]. rewrite lookup_insert_eq.
  split; [done|]. apply json_loads_iterencode_list.
Qed.

End SaveJson.

Lemma json_save_round_trip_witness :
  let st' := (save_to_file (λ _, "") ["alice"; "bob-2"] "octocat_fans" "json"
                (new_session "octocat")).2 in
  (files st' !! "octocat_fans.json") ≫= json_loads = Some ["alice"; "bob-2"].
Proof.
  apply (json_save_round_trip (λ _, "") ["alice"; "bob-2"] "octocat_fans"
           (new_session "octocat")).
  simpl. apply not_elem_of_empty.
Defined.

(** * Further properties *)

(** ** Every run of a fetch *)

Lemma error_status_of_range r status :
  error_status_of r = Some status → 400 ≤ status < 600.
Proof.
  destruct r as [r|]; [|done]. unfold error_status_of.
  case_bool_decide; [|done]. by intros [= <-].
Qed.

Section Runs.

Variable server : list request → request → reply.

Lemma paginate_run fuel endpoint results page st :
  ∃ pages,
    answers server (sent st) endpoint page pages ∧
    let n := length pages in
    let last := server (sent st ++ page_requests endpoint page n)
                  (page_request endpoint (page + Z.of_nat n)) in
    let st' := set_sent (λ l, l ++ page_requests endpoint page (S n)) st in
    let run := paginate server fuel endpoint results page st in
    (n = fuel ∧
       run = (OutOfFuel, set_sent (λ l, l ++ page_requests endpoint page n) st)) ∨
    ((n < fuel)%nat ∧
      ((page_of last = Some [] ∧
          run = (Returned (Some (results ++ concat pages)), st')) ∨
       (∃ status, error_status_of last = Some status ∧
          run = (Returned None,
                 set_console
                   (λ c, c ++ [http_error_message (username (self st)) status]) st')) ∨
       (last = TransportFailure ∧ run = (Raised ConnectionError, st')) ∨
       (∃ r, last = Delivered r ∧ ¬ (400 ≤ status_code r < 600) ∧ body r = None ∧
          run = (Raised JSONDecodeError, st')))).
Proof.
  destruct (paginate server fuel endpoint results page st) as [o st1] eqn:Hrun.
  revert results page st o st1 Hrun.
  induction fuel as [|fuel IH]; intros results page st o st1 Hrun.
  - exists []. split; [done|]. left. split; [done|].
    simpl in Hrun. injection Hrun as <- <-. by rewrite page_requests_0, set_sent_nil.
  - rewrite paginate_S in Hrun. cbv zeta in Hrun.
    destruct (server (sent st) (page_request endpoint page)) as [r|] eqn:Hreply.
    + destruct (bool_decide (400 ≤ status_code r < 600)) eqn:Herr.
      * exists []. split; [done|]. cbv zeta. cbn [length]. change (Z.of_nat 0) with 0.
        rewrite page_requests_0, (right_id_L [] (++) (sent st)), Z.add_0_r, Hreply,
          page_requests_S, page_requests_0.
        right. split; [lia|]. right. left.
        exists (status_code r). unfold error_status_of. by rewrite Herr.
      * destruct (body r) as [[|u data]|] eqn:Hbody.
        -- exists []. split; [done|]. cbv zeta. cbn [length]. change (Z.of_nat 0) with 0.
           rewrite page_requests_0, (right_id_L [] (++) (sent st)), Z.add_0_r, Hreply,
             page_requests_S, page_requests_0.
           right. split; [lia|]. left.
           unfold page_of. cbn [concat]. by rewrite Herr, (right_id_L [] (++)).
        -- destruct (IH _ _ _ _ _ Hrun) as (pages & Hans & Hcases).
           exists ((u :: data) :: pages). split.
           { split_and!; [done| |done]. unfold page_of. by rewrite Hreply, Herr. }
           cbv zeta in Hcases |- *. cbn [length concat] in Hcases |- *. cbn [sent set_sent] in Hcases.
           rewrite !set_sent_app in Hcases.
           rewrite <- !(assoc_L (++) (sent st)) in Hcases.
           change ([page_request endpoint page] ++ ?l)
             with (page_request endpoint page :: l) in Hcases.
           rewrite <- !page_requests_S in Hcases.
           replace (page + 1 + Z.of_nat (length pages))
             with (page + Z.of_nat (S (length pages))) in Hcases by lia.
           rewrite <- (assoc_L (++) results) in Hcases.
           change (self (set_sent ?f st)) with (self st) in Hcases.
           destruct Hcases as [[Hn Hend]|[Hn Hend]].
           ++ left. split; [by f_equal|exact Hend].
           ++ right. split; [lia|]. exact Hend.
        -- exists []. split; [done|]. cbv zeta. cbn [length]. change (Z.of_nat 0) with 0.
           rewrite page_requests_0, (right_id_L [] (++) (sent st)), Z.add_0_r, Hreply,
             page_requests_S, page_requests_0.
           right. split; [lia|]. do 3 right.
           exists r. split_and!; [done|by apply (proj1 (bool_decide_eq_false _))|done..].
    + exists []. split; [done|]. cbv zeta. cbn [length]. change (Z.of_nat 0) with 0.
      rewrite page_requests_0, (right_id_L [] (++) (sent st)), Z.add_0_r, Hreply,
        page_requests_S, page_requests_0.
      right. split; [lia|]. right. right. by left.
Qed.


Lemma paginate_shape fuel endpoint results page st :
  let st' := (paginate server fuel endpoint results page st).2 in
  ∃ k, (k ≤ fuel)%nat ∧
    sent st' = sent st ++ page_requests endpoint page k ∧
    self st' = self st ∧ files st' = files st ∧ unwritable st' = unwritable st ∧
    (console st' = console st ∨
     ∃ status, 400 ≤ status < 600 ∧
       console st' = console st ++ [http_error_message (username (self st)) status]).
Proof.
  destruct (paginate_run fuel endpoint results page st) as (pages & _ & Hcases).
  cbv zeta in Hcases |- *.
  destruct Hcases as [[Hn ->]|[Hn [[_ ->]|[(status & Hst & ->)|[[_ ->]|(r & _ & _ & _ & ->)]]]]];
    cbn [snd]; try (eexists; split_and!; [|done..|by left]; lia).
  eexists. split_and!; [|done..|]; [lia|]. right. exists status. split; [|done].
  by eapply error_status_of_range.
Qed.

Lemma paginate_raises fuel endpoint results page st e st' :
  paginate server fuel endpoint results page st = (Raised e, st') →
  e = ConnectionError ∨ e = JSONDecodeError.
Proof.
  intros Hrun.
  destruct (paginate_run fuel endpoint results page st) as (pages & _ & Hcases).
  cbv zeta in Hcases. rewrite Hrun in Hcases.
  destruct Hcases as [[_ ?]|[Hn [[_ ?]|[(status & _ & ?)|[[_ ?]|(r & _ & _ & _ & ?)]]]]];
    simplify_eq; auto.
Qed.

(** X1.  Whatever the server answers and however the fetch ends, it has
    only asked for consecutive pages of 100 of its endpoint, from page 1
    on and at most one per pass, has left the object and the files alone,
    and has printed nothing or the one line of an HTTP error. *)
Theorem fetch_requests_consecutive_pages fuel endpoint st :
  let st' := (_get_paginated_data server fuel endpoint st).2 in
  ∃ k, (k ≤ fuel)%nat ∧
    sent st' = sent st ++ page_requests endpoint 1 k ∧
    self st' = self st ∧ files st' = files st ∧ unwritable st' = unwritable st ∧
    (console st' = console st ∨
     ∃ status, 400 ≤ status < 600 ∧
       console st' = console st ++ [http_error_message (username (self st)) status]).
Proof. apply paginate_shape. Qed.

(** X2.  A fetch returns a list only in one way: the server answered its
    requests with non-empty pages and then an empty one, and the list is
    the concatenation of those pages; nothing was printed. *)
Theorem fetch_success_only_from_served_pages fuel endpoint st items st' :
  _get_paginated_data server fuel endpoint st = (Returned (Some items), st') →
  ∃ pages,
    answers server (sent st) endpoint 1 pages ∧
    page_of (server (sent st ++ page_requests endpoint 1 (length pages))
               (page_request endpoint (1 + Z.of_nat (length pages)))) = Some [] ∧
    items = concat pages ∧
    (length pages < fuel)%nat ∧
    st' = set_sent (λ l, l ++ page_requests endpoint 1 (S (length pages))) st.
Proof.
  unfold _get_paginated_data. intros Hrun.
  destruct (paginate_run fuel endpoint [] 1 st) as (pages & Hans & Hcases).
  cbv zeta in Hcases. rewrite Hrun in Hcases.
  destruct Hcases as [[_ ?]|[Hn [[Hlast Heq]|[(status & _ & ?)|[[_ ?]|(r & _ & _ & _ & ?)]]]]];
    try done.
  injection Heq as -> ->. by exists pages.
Qed.

(** X3.  A fetch returns the failure value only in one way: after some
    non-empty pages a request was answered with a status from 400 to 599,
    and the line for that status was printed. *)
Theorem fetch_failure_only_from_http_error fuel endpoint st st' :
  _get_paginated_data server fuel endpoint st = (Returned None, st') →
  ∃ pages status,
    answers server (sent st) endpoint 1 pages ∧
    error_status_of (server (sent st ++ page_requests endpoint 1 (length pages))
                       (page_request endpoint (1 + Z.of_nat (length pages))))
      = Some status ∧
    400 ≤ status < 600 ∧
    (length pages < fuel)%nat ∧
    st' = set_console (λ c, c ++ [http_error_message (username (self st)) status])
            (set_sent (λ l, l ++ page_requests endpoint 1 (S (length pages))) st).
Proof.
  unfold _get_paginated_data. intros Hrun.
  destruct (paginate_run fuel endpoint [] 1 st) as (pages & Hans & Hcases).
  cbv zeta in Hcases. rewrite Hrun in Hcases.
  destruct Hcases as [[_ ?]|[Hn [[_ ?]|[(status & Hst & Heq)|[[_ ?]|(r & _ & _ & _ & ?)]]]]];
    try done.
  injection Heq as ->. exists pages, status. split_and!; try done.
  all: try by eapply error_status_of_range.
Qed.


(** X5.  The loop has no stopping rule of its own: after [fuel] passes it
    is still running exactly when the server answered all of them with
    non-empty pages. *)
Theorem fetch_runs_while_pages_come fuel endpoint st :
  (_get_paginated_data server fuel endpoint st).1 = OutOfFuel ↔
  ∃ pages, length pages = fuel ∧ answers server (sent st) endpoint 1 pages.
Proof.
  unfold _get_paginated_data. split.
  - intros Hrun.
    destruct (paginate_run fuel endpoint [] 1 st) as (pages & Hans & Hcases).
    cbv zeta in Hcases.
    destruct Hcases as [[Hn _]|[Hn [[_ Heq]|[(status & _ & Heq)|[[_ Heq]|(r & _ & _ & _ & Heq)]]]]];
      [by exists pages|rewrite Heq in Hrun; done..].
  - intros (pages & <- & Hans).
    rewrite <- (Nat.add_0_r (length pages)), paginate_pages by done. done.
Qed.


(** ** The session and the network *)

Lemma session_step_refl st : session_step st st.
Proof.
  split_and!; try done. exists []. by rewrite (right_id_L [] (++)).
Qed.

Lemma session_step_trans st1 st2 st3 :
  session_step st1 st2 → session_step st2 st3 → session_step st1 st3.
Proof.
  intros (Hu1 & Hf1 & Hw1 & new1 & Hs1 & Hn1) (Hu2 & Hf2 & Hw2 & new2 & Hs2 & Hn2).
  split_and!; try congruence. exists (new1 ++ new2). split.
  - by rewrite Hs2, Hs1, (assoc_L (++)).
  - apply Forall_app. split; [done|]. by rewrite <- Hu1.
Qed.

Lemma page_requests_own u n :
  Forall (own_request u) (page_requests (followers_endpoint u) 1 n) ∧
  Forall (own_request u) (page_requests (following_endpoint u) 1 n).
Proof.
  split; apply Forall_lookup_2; intros k rq Hk;
    apply page_requests_lookup in Hk as (Hurl & Hper & Hpage);
    (split_and!; [done|lia|auto]).
Qed.

Lemma get_followers_step fuel st :
  session_step st (get_followers server fuel st).2.
Proof.
  destruct (_followers (self st)) as [l|] eqn:Hc.
  - rewrite (get_followers_cached _ _ _ l) by done. apply session_step_refl.
  - rewrite get_followers_uncached by done. unfold _get_paginated_data.
    pose proof (paginate_shape fuel (followers_endpoint (username (self st))) [] 1
      (set_console (λ c, c ++ [MsgFetchingFollowers (username (self st))]) st))
      as (k & _ & Hsent & Hself & Hfiles & Hw & _).
    cbv zeta in Hsent, Hself, Hfiles, Hw.
    destruct (paginate _ _ _ _ _ _) as [[data|e|] st1];
      unfold session_step, set_self, set_console in *;
      cbn [snd self files unwritable sent username set_followers set_following] in *;
      (split_and!; [by rewrite ?Hself|done|done|];
       exists (page_requests (followers_endpoint (username (self st))) 1 k);
       split; [done|apply page_requests_own]).
Qed.

Lemma get_following_step fuel st :
  session_step st (get_following server fuel st).2.
Proof.
  destruct (_following (self st)) as [l|] eqn:Hc.
  - rewrite (get_following_cached _ _ _ l) by done. apply session_step_refl.
  - rewrite get_following_uncached by done. unfold _get_paginated_data.
    pose proof (paginate_shape fuel (following_endpoint (username (self st))) [] 1
      (set_console (λ c, c ++ [MsgFetchingFollowing (username (self st))]) st))
      as (k & _ & Hsent & Hself & Hfiles & Hw & _).
    cbv zeta in Hsent, Hself, Hfiles, Hw.
    destruct (paginate _ _ _ _ _ _) as [[data|e|] st1];
      unfold session_step, set_self, set_console in *;
      cbn [snd self files unwritable sent username set_followers set_following] in *;
      (split_and!; [by rewrite ?Hself|done|done|];
       exists (page_requests (following_endpoint (username (self st))) 1 k);
       split; [done|apply page_requests_own]).
Qed.

Lemma find_step fuel st :
  session_step st (find_non_followers server fuel st).2 ∧
  session_step st (find_fans server fuel st).2.
Proof.
  unfold find_non_followers, find_fans, bind.
  pose proof (get_following_step fuel st) as H1.
  destruct (get_following server fuel st) as [[following|e|] st1]; cbn [snd] in H1;
    [|done..].
  pose proof (get_followers_step fuel st1) as H2.
  destruct (get_followers server fuel st1) as [[followers|e|] st2]; cbn [snd] in H2;
    [destruct following, followers|..]; cbn [snd ret];
    split; by eapply session_step_trans.
Qed.

Lemma after_call_step st c : session_step st (after_call server st c).
Proof.
  destruct c as [[] fuel]; unfold after_call; cbn [fst snd].
  - apply get_followers_step.
  - apply get_following_step.
  - apply find_step.
  - apply find_step.
Qed.

(** X7.  Over any sequence of calls of the session's methods the username
    and the files stay as they were, and every request sent is a page
    request (100 per page, page 1 or later) to the followers or the
    following endpoint of that username. *)
Theorem session_requests_own_endpoints calls st :
  let st' := after_calls server calls st in
  username (self st') = username (self st) ∧
  files st' = files st ∧
  ∃ new, sent st' = sent st ++ new ∧
    ∀ rq, rq ∈ new →
      per_page rq = 100 ∧ 1 ≤ page rq ∧
      (url rq = API_URL +:+ followers_endpoint (username (self st)) ∨
       url rq = API_URL +:+ following_endpoint (username (self st))).
Proof.
  cbv zeta. assert (session_step st (after_calls server calls st)) as Hstep.
  { revert st. induction calls as [|c calls IH]; intros st.
    - apply session_step_refl.
    - unfold after_calls. cbn [foldl].
      eapply session_step_trans; [apply after_call_step|apply IH]. }
  destruct Hstep as (Hu & Hf & _ & new & Hs & Hn).
  split_and!; [done..|]. exists new. split; [done|].
  intros rq Hrq. by apply (proj1 (Forall_forall _ _) Hn).
Qed.


(** X6.  On an empty slot, when the server answers with non-empty pages
    and then an empty one, a getter returns the [login] of every item of
    those pages, in the order served, stores that list, and has printed
    its progress line. *)
Theorem getter_returns_logins_in_order st pages fuel :
  let u := username (self st) in
  let served endpoint :=
    answers server (sent st) endpoint 1 pages ∧
    page_of (server (sent st ++ page_requests endpoint 1 (length pages))
               (page_request endpoint (1 + Z.of_nat (length pages)))) = Some [] in
  (length pages < fuel)%nat →
  (_followers (self st) = None → served (followers_endpoint u) →
     get_followers server fuel st
     = (Returned (Some (login <$> concat pages)),
        set_self (set_followers (login <$> concat pages))
          (set_sent (λ l, l ++ page_requests (followers_endpoint u) 1 (S (length pages)))
             (set_console (λ c, c ++ [MsgFetchingFollowers u]) st)))) ∧
  (_following (self st) = None → served (following_endpoint u) →
     get_following server fuel st
     = (Returned (Some (login <$> concat pages)),
        set_self (set_following (login <$> concat pages))
          (set_sent (λ l, l ++ page_requests (following_endpoint u) 1 (S (length pages)))
             (set_console (λ c, c ++ [MsgFetchingFollowing u]) st)))).
Proof.
  intros u served Hfuel. subst u served. split; intros Hc [Hans Hlast].
  - rewrite get_followers_uncached by done. unfold _get_paginated_data.
    by rewrite (paginate_empty_page server pages fuel _ [] 1
                  (set_console _ st) Hans Hfuel Hlast).
  - rewrite get_following_uncached by done. unfold _get_paginated_data.
    by rewrite (paginate_empty_page server pages fuel _ [] 1
                  (set_console _ st) Hans Hfuel Hlast).
Qed.


Lemma find_returned fuel st :
  (∀ v st', find_non_followers server fuel st = (Returned v, st') →
     ∃ l1 l2, _following (self st') = Some l1 ∧ _followers (self st') = Some l2 ∧
              v = non_followers_of l1 l2) ∧
  (∀ v st', find_fans server fuel st = (Returned v, st') →
     ∃ l1 l2, _following (self st') = Some l1 ∧ _followers (self st') = Some l2 ∧
              v = fans_of l1 l2).
Proof.
  unfold find_non_followers, find_fans, bind.
  destruct (get_following server fuel st) as [[following|e|] st1] eqn:H1;
    [|by split..].
  destruct (get_following_returned _ _ _ _ _ H1) as (l1 & -> & Hl1).
  pose proof (get_followers_keeps server fuel st1) as [_ Hkeep].
  destruct (get_followers server fuel st1) as [[followers|e|] st2] eqn:H2;
    [|by split..].
  destruct (get_followers_returned _ _ _ _ _ H2) as (l2 & -> & Hl2).
  cbn [snd] in Hkeep. split; intros v st' [= <- <-]; exists l1, l2; auto.
Qed.

Lemma find_cached fuel st l1 l2 :
  _following (self st) = Some l1 → _followers (self st) = Some l2 →
  find_non_followers server fuel st = (Returned (non_followers_of l1 l2), st) ∧
  find_fans server fuel st = (Returned (fans_of l1 l2), st).
Proof.
  intros H1 H2. apply (find_after_getters server fuel st l1 st l2 st).
  - by apply get_following_cached.
  - by apply get_followers_cached.
Qed.

End Runs.

(** X9.  Once either reconciliation method has returned, both slots are
    filled, and from then on both methods answer from them, on any server
    and with any budget: the two differences of the same two lists, with
    no request sent and nothing printed. *)
Theorem find_again_answers_from_cache server fuel st v st' :
  find_non_followers server fuel st = (Returned v, st') ∨
  find_fans server fuel st = (Returned v, st') →
  ∃ l1 l2,
    _following (self st') = Some l1 ∧ _followers (self st') = Some l2 ∧
    ∀ server' fuel',
      find_non_followers server' fuel' st' = (Returned (non_followers_of l1 l2), st') ∧
      find_fans server' fuel' st' = (Returned (fans_of l1 l2), st').
Proof.
  destruct (find_returned server fuel st) as [Hn Hf].
  intros [H|H]; [apply Hn in H|apply Hf in H];
    destruct H as (l1 & l2 & H1 & H2 & _); exists l1, l2;
    (split_and!; [done..|]); intros server' fuel'; by apply find_cached.
Qed.

(** ** More on the two reports *)

(** X10.  Nobody is reported both as a non-follower and as a fan. *)
Theorem nobody_is_both_non_follower_and_fan (following followers : list string) x :
  x ∈ non_followers_of following followers → x ∉ fans_of following followers.
Proof.
  unfold non_followers_of, fans_of. rewrite !list_elem_of_filter. tauto.
Qed.

(** X11.  Both reports are empty exactly when the two fetched lists name
    the same accounts. *)
Theorem both_results_empty_iff_same_accounts (following followers : list string) :
  non_followers_of following followers = [] ∧ fans_of following followers = []
  ↔ ∀ x, x ∈ following ↔ x ∈ followers.
Proof.
  unfold non_followers_of, fans_of. split.
  - intros [Hn Hf] x. split; intros Hx.
    + destruct (decide (x ∈ followers)) as [|Hno]; [done|].
      by destruct (filter_nil_not_elem_of _ _ x Hn Hno).
    + destruct (decide (x ∈ following)) as [|Hno]; [done|].
      by destruct (filter_nil_not_elem_of _ _ x Hf Hno).
  - intros Hsame. split; apply filter_none, Forall_forall; intros x Hx Hno;
      apply Hno, Hsame, Hx.
Qed.

(** X12.  A report looks at the other list through membership only: the
    order of that list and its repetitions do not change the report. *)
Theorem difference_looks_at_membership_only
    (following following' followers followers' : list string) :
  ((∀ x, x ∈ followers ↔ x ∈ followers') →
     non_followers_of following followers = non_followers_of following followers') ∧
  ((∀ x, x ∈ following ↔ x ∈ following') →
     fans_of following followers = fans_of following' followers).
Proof.
  unfold non_followers_of, fans_of.
  split; intros Hsame; apply list_filter_iff; intros x; by rewrite Hsame.
Qed.

(** ** What the username pattern accepts *)

Lemma without_final_newline_append s :
  without_final_newline (s +:+ String newline_char "") = s.
Proof.
  induction s as [|c s IH]; [done|].
  rewrite append_cons. destruct s as [|d s]; [by rewrite append_nil_l|].
  rewrite append_cons in IH |- *. rewrite without_final_newline_cons. by rewrite IH.
Qed.

Lemma without_final_newline_cases s :
  without_final_newline s = s ∨
  s = without_final_newline s +:+ String newline_char "".
Proof.
  induction s as [|c s IH]; [by left|].
  destruct s as [|d s].
  - simpl. destruct (is_newline c) eqn:Hc; [|by left]. right.
    rewrite append_nil_l. f_equal.
    unfold is_newline, code in Hc. apply Nat.eqb_eq in Hc.
    by rewrite <- (ascii_nat_embedding c), Hc.
  - rewrite without_final_newline_cons. destruct IH as [->| IH]; [by left|].
    right. rewrite append_cons. by rewrite <- IH.
Qed.

Lemma all_identifier_chars_no_final_newline s :
  all_identifier_chars s = true → without_final_newline s = s.
Proof.
  induction s as [|c s IH]; [done|]. cbn [all_identifier_chars].
  intros [Hc Hs]%andb_true_iff. destruct s as [|d s].
  - simpl. destruct (is_newline c) eqn:Hn; [|done].
    apply orb_true_iff in Hc as [Hc|Hc];
      [apply is_alnum_not_newline in Hc|apply is_hyphen_not_newline in Hc];
      congruence.
  - rewrite without_final_newline_cons. by rewrite IH.
Qed.

Lemma conforms_all_identifier_chars s :
  conforms_to_grammar s = true → all_identifier_chars s = true.
Proof.
  unfold conforms_to_grammar. rewrite !andb_true_iff. tauto.
Qed.

(** X13.  The pattern accepts exactly the strings that conform to the
    grammar, and those strings followed by one newline. *)
Theorem validate_username_accepts_iff s :
  validate_username s = true ↔
  conforms_to_grammar s = true ∨
  ∃ s', s = s' +:+ String newline_char "" ∧ conforms_to_grammar s' = true.
Proof.
  rewrite validate_username_spec. split.
  - intros H. destruct (without_final_newline_cases s) as [Heq|Heq].
    + left. by rewrite <- Heq.
    + right. by exists (without_final_newline s).
  - intros [H|(s' & -> & H)].
    + by rewrite all_identifier_chars_no_final_newline
        by by apply conforms_all_identifier_chars.
    + by rewrite without_final_newline_append.
Qed.

(** ** Saving *)

Lemma append_nil_r (s : string) : s +:+ "" = s.
Proof. induction s as [|c s IH]; [done|]. by rewrite append_cons, IH. Qed.

Lemma set_files_id st : set_files (λ fs, fs) st = st.
Proof. by destruct st. Qed.

Lemma for_each_write {A} (f : A → string) path (l : list A) st text :
  files st !! path = Some text →
  for_each l (λ item, write path (f item)) st
  = (Returned tt, set_files (λ fs, <[path := text +:+ join (f <$> l)]> fs) st).
Proof.
  revert st text. induction l as [|x l IH]; intros st text Hopen.
  - cbn [for_each fmap list_fmap join]. unfold ret. f_equal.
    rewrite append_nil_r. destruct st as [o s c fs w]. unfold set_files; simpl in *.
    by rewrite insert_id.
  - cbn [for_each]. unfold bind at 1. unfold write at 1, modify.
    rewrite (IH _ (text +:+ f x)).
    + f_equal. unfold set_files. cbn [self sent console files unwritable].
      rewrite Hopen. cbn [default]. f_equal.
      rewrite insert_insert_eq. cbn [fmap list_fmap join].
      by rewrite append_assoc.
    + unfold set_files. cbn [files]. rewrite Hopen. cbn [default].
      by rewrite lookup_insert_eq.
Qed.

Section Save.

Variable csv_writerow : list string → string.

Lemma save_to_file_spec data filename file_format st :
  let path := filename +:+ "." +:+ file_format in
  save_to_file csv_writerow data filename file_format st
  = match file_text csv_writerow file_format data with
    | None => (Returned tt, set_console (λ c, c ++ [MsgUnsupportedFormat file_format]) st)
    | Some text =>
        if bool_decide (path ∈ unwritable st)
        then (Returned tt, set_console (λ c, c ++ [MsgSaveError path]) st)
        else (Returned tt,
              set_console (λ c, c ++ [MsgSaved path])
                (set_files (λ fs, <[path := text]> fs) st))
    end.
Proof.
  intros path. unfold save_to_file, file_text. fold path.
  unfold try_except, bind, open_w, print, modify, ret.
  destruct (bool_decide (file_format = "txt")).
  { destruct (bool_decide (path ∈ unwritable st)); [done|].
    rewrite (for_each_write _ path data _ "")
      by (cbn [files set_files]; apply lookup_insert_eq).
    rewrite append_nil_l. f_equal. unfold set_console, set_files.
    cbn [self sent console files unwritable]. by rewrite insert_insert_eq. }
  destruct (bool_decide (file_format = "csv")).
  { destruct (bool_decide (path ∈ unwritable st)); [done|].
    unfold write at 1, modify.
    rewrite (for_each_write _ path data _ (csv_writerow ["username"])).
    - f_equal. unfold set_console, set_files.
      cbn [self sent console files unwritable]. by rewrite !insert_insert_eq.
    - cbn [files set_files]. by rewrite !lookup_insert_eq. }
  destruct (bool_decide (file_format = "json")); [|done].
  destruct (bool_decide (path ∈ unwritable st)); [done|].
  unfold write, modify. f_equal. unfold set_console, set_files.
  cbn [self sent console files unwritable].
  by rewrite lookup_insert_eq, insert_insert_eq.
Qed.


(** X14.  For a format other than [txt], [csv] and [json] nothing is
    opened or written, writable path or not: the one effect is the line
    naming the format. *)
Theorem save_unsupported_format_writes_nothing data filename file_format st :
  file_format ∉ ["txt"; "csv"; "json"] →
  save_to_file csv_writerow data filename file_format st
  = (Returned tt, set_console (λ c, c ++ [MsgUnsupportedFormat file_format]) st).
Proof.
  intros Hfmt. rewrite save_to_file_spec. unfold file_text.
  rewrite !bool_decide_false; [done|intros ->; apply Hfmt; set_solver..].
Qed.


(** A save returns, prints one line, and leaves everything but its own
    file as it was; it changes a file only for a format it knows. *)
Lemma save_to_file_frame data filename file_format st :
  ∃ st' m,
    save_to_file csv_writerow data filename file_format st = (Returned tt, st') ∧
    self st' = self st ∧ sent st' = sent st ∧ unwritable st' = unwritable st ∧
    console st' = console st ++ [m] ∧
    (∀ path, path ≠ filename +:+ "." +:+ file_format →
             files st' !! path = files st !! path) ∧
    (files st' ≠ files st → file_format ∈ ["txt"; "csv"; "json"]).
Proof.
  rewrite save_to_file_spec. cbv zeta.
  destruct (file_text csv_writerow file_format data) as [text|] eqn:Htext.
  - assert (file_format ∈ ["txt"; "csv"; "json"]) as Hfmt.
    { unfold file_text in Htext. repeat case_bool_decide; subst; set_solver. }
    case_bool_decide; eexists _, _; (split_and!; [done..| |done]);
      intros path Hpath; [done|].
    cbn [files set_console set_files]. by rewrite lookup_insert_ne.
  - eexists _, _. by split_and!.
Qed.



Lemma file_text_None file_format d1 d2 :
  file_text csv_writerow file_format d1 = None →
  file_text csv_writerow file_format d2 = None.
Proof. unfold file_text. by repeat case_bool_decide. Qed.

(** X17.  A save opens its file anew: saving a second list under the same
    name and format leaves the files as if only the second list had been
    saved. *)
Theorem save_again_replaces_the_file d1 d2 filename file_format st :
  let st1 := (save_to_file csv_writerow d1 filename file_format st).2 in
  files (save_to_file csv_writerow d2 filename file_format st1).2
  = files (save_to_file csv_writerow d2 filename file_format st).2.
Proof.
  cbv zeta. rewrite !save_to_file_spec. cbv zeta.
  set (path := filename +:+ "." +:+ file_format).
  destruct (file_text csv_writerow file_format d1) as [t1|] eqn:H1;
    destruct (file_text csv_writerow file_format d2) as [t2|] eqn:H2; try done.
  - destruct (bool_decide (path ∈ unwritable st)) eqn:Hw;
      cbn [snd unwritable set_console set_files]; rewrite Hw; [done|].
    cbn [snd files set_console set_files]. by rewrite insert_insert_eq.
  - apply (file_text_None _ _ d1) in H2. congruence.
  - apply (file_text_None _ _ d2) in H1. congruence.
Qed.

(** X18.  Saving an empty list still writes the file: empty for [txt],
    the header row alone for [csv], and [[]] for [json]. *)
Theorem save_empty_list filename file_format st :
  let path := filename +:+ "." +:+ file_format in
  path ∉ unwritable st →
  let st' := (save_to_file csv_writerow [] filename file_format st).2 in
  (file_format = "txt" → files st' !! path = Some "") ∧
  (file_format = "csv" → files st' !! path = Some (csv_writerow ["username"])) ∧
  (file_format = "json" → files st' !! path = Some "[]").
Proof.
  intros path Hw st'. subst st' path. rewrite save_to_file_spec. cbv zeta.
  rewrite (bool_decide_false _ Hw). unfold file_text.
  split_and!; intros ->.
  - rewrite bool_decide_true by done.
    cbn [snd files set_console set_files]. by rewrite lookup_insert_eq.
  - rewrite bool_decide_false, bool_decide_true by done.
    cbn [snd files set_console set_files fmap list_fmap join].
    by rewrite lookup_insert_eq, append_nil_r.
  - rewrite !bool_decide_false, bool_decide_true by done.
    cbn [snd files set_console set_files]. by rewrite lookup_insert_eq.
Qed.


Lemma line_split s1 s2 r1 r2 :
  contains_newline s1 = false → contains_newline s2 = false →
  s1 +:+ String newline_char r1 = s2 +:+ String newline_char r2 →
  s1 = s2 ∧ r1 = r2.
Proof.
  revert s2. induction s1 as [|c s1 IH]; intros [|d s2] H1 H2 Heq.
  - rewrite !append_nil_l in Heq. by injection Heq as ->.
  - rewrite append_nil_l, append_cons in Heq. injection Heq as <- _.
    by cbn in H2.
  - rewrite append_nil_l, append_cons in Heq. injection Heq as -> _.
    by cbn in H1.
  - rewrite !append_cons in Heq. injection Heq as -> Heq.
    cbn [contains_newline] in H1, H2.
    apply orb_false_iff in H1 as [_ H1]. apply orb_false_iff in H2 as [_ H2].
    by destruct (IH s2 H1 H2 Heq) as [-> ->].
Qed.

Lemma join_lines_inj (d1 d2 : list string) :
  Forall (λ item, contains_newline item = false) d1 →
  Forall (λ item, contains_newline item = false) d2 →
  join ((λ item, item +:+ String newline_char "") <$> d1)
  = join ((λ item, item +:+ String newline_char "") <$> d2) →
  d1 = d2.
Proof.
  intros H1. revert d2. induction H1 as [|x d1 Hx _ IH]; intros d2 H2 Heq.
  - destruct H2 as [|y d2 Hy _]; [done|].
    cbn [fmap list_fmap join] in Heq. rewrite append_assoc in Heq.
    by destruct y.
  - destruct H2 as [|y d2 Hy H2].
    + cbn [fmap list_fmap join] in Heq. rewrite append_assoc in Heq.
      by destruct x.
    + cbn [fmap list_fmap join] in Heq. rewrite !append_assoc in Heq.
      rewrite !append_cons, !append_nil_l in Heq.
      destruct (line_split _ _ _ _ Hx Hy Heq) as [-> Hrest].
      f_equal. by apply IH.
Qed.

(** X19.  The [txt] format loses nothing on names without a newline: two
    such lists that leave the same text in the file are the same list. *)
Theorem saved_txt_determines_the_list d1 d2 filename st1 st2 :
  let path := filename +:+ ".txt" in
  path ∉ unwritable st1 → path ∉ unwritable st2 →
  Forall (λ item, contains_newline item = false) d1 →
  Forall (λ item, contains_newline item = false) d2 →
  files (save_to_file csv_writerow d1 filename "txt" st1).2 !! path
  = files (save_to_file csv_writerow d2 filename "txt" st2).2 !! path →
  d1 = d2.
Proof.
  intros path Hw1 Hw2 Hd1 Hd2. subst path. rewrite !save_to_file_spec. cbv zeta.
  change ("." +:+ "txt") with ".txt".
  rewrite !bool_decide_false by done. unfold file_text.
  rewrite !bool_decide_true by done.
  cbn [snd files set_console set_files]. rewrite !lookup_insert_eq.
  intros [= Heq]. by apply join_lines_inj.
Qed.

End Save.

Lemma string_forall_append p s1 s2 :
  string_forall p (s1 +:+ s2) = string_forall p s1 && string_forall p s2.
Proof.
  induction s1 as [|c s1 IH]; [done|].
  rewrite append_cons. cbn [string_forall]. by rewrite IH, andb_assoc.
Qed.

Lemma escape_ascii_printable c :
  string_forall printable_ascii_or_newline (escape_ascii c) = true.
Proof. destruct c as [[] [] [] [] [] [] [] []]; reflexivity. Qed.

Lemma py_encode_basestring_ascii_printable s :
  string_forall printable_ascii_or_newline (py_encode_basestring_ascii s) = true.
Proof.
  unfold py_encode_basestring_ascii. cbn [string_forall].
  rewrite string_forall_append. apply andb_true_iff. split; [done|].
  apply andb_true_iff. split; [|done].
  induction s as [|c s IH]; [done|]. cbn [escape_all].
  by rewrite string_forall_append, escape_ascii_printable, IH.
Qed.

(** X20.  Whatever characters the names hold, the text written for the
    [json] format consists of printable ASCII characters and newlines. *)
Theorem json_text_is_ascii data :
  string_forall printable_ascii_or_newline (iterencode_list data) = true.
Proof.
  destruct data as [|value l]; [done|]. unfold iterencode_list.
  rewrite !string_forall_append, py_encode_basestring_ascii_printable.
  repeat (apply andb_true_iff; split); try done.
  induction l as [|w l IH]; [done|]. cbn [iterencode_rest].
  rewrite !string_forall_append, py_encode_basestring_ascii_printable, IH. done.
Qed.

(** ** The command line *)

Lemma cli_step_refl u st : cli_step u st st.
Proof.
  split_and!; try done; [|by left]. exists []. by rewrite (right_id_L [] (++)).
Qed.

Lemma cli_step_trans u st1 st2 st3 :
  cli_step u st1 st2 → cli_step u st2 st3 → cli_step u st1 st3.
Proof.
  intros (Hu1 & Hw1 & (new1 & Hs1 & Hn1) & Hf1) (Hu2 & Hw2 & (new2 & Hs2 & Hn2) & Hf2).
  split_and!; try congruence.
  - exists (new1 ++ new2). split; [by rewrite Hs2, Hs1, (assoc_L (++))|].
    by apply Forall_app.
  - intros path. destruct (Hf2 path) as [->|?]; [|by right]. apply Hf1.
Qed.

Lemma session_step_cli_step u st st' :
  username (self st) = u → session_step st st' → cli_step u st st'.
Proof.
  intros <- (Hu & Hf & Hw & new & Hs & Hn).
  split_and!; try done; [by exists new|]. intros path. left. by rewrite Hf.
Qed.

Lemma menu_ok_after u stdin stdin' st st1 terminal terminal1 more r :
  menu_ok u stdin' st1 terminal1 r →
  terminal1 = terminal ++ more →
  Forall not_init_error more →
  cli_step u st st1 →
  (Forall (λ answer, lower answer ≠ "y") stdin →
     Forall (λ answer, lower answer ≠ "y") stdin' ∧ files st1 = files st) →
  menu_ok u stdin st terminal r.
Proof.
  intros (Hstep' & Hend & (more' & Hout & Hmore' & Hlast) & Hfiles) -> Hmore Hstep Hy.
  split_and!.
  - by eapply cli_step_trans.
  - done.
  - exists (more ++ more'). split_and!.
    + by rewrite Hout, (assoc_L (++)).
    + by apply Forall_app.
    + intros Hret. specialize (Hlast Hret).
      destruct more' as [|l more' _] using rev_ind; [done|].
      rewrite last_snoc in Hlast. by rewrite (assoc_L (++)), last_snoc.
  - intros Hno. destruct (Hy Hno) as [Hno' Hf]. by rewrite Hfiles, Hf.
Qed.

Lemma menu_ok_stop u stdin st st1 terminal terminal1 more e :
  terminal1 = terminal ++ more →
  Forall not_init_error more →
  cli_step u st st1 →
  expected_end e →
  (e = MainReturned → last more = Some LineGoodbye) →
  (Forall (λ answer, lower answer ≠ "y") stdin → files st1 = files st) →
  menu_ok u stdin st terminal (e, st1, terminal1).
Proof.
  intros -> Hmore Hstep Hend Hlast Hfiles. split_and!; try done.
  by exists more.
Qed.

Lemma printed_since_not_init_error st st' :
  Forall not_init_error (printed_since st st').
Proof.
  unfold printed_since. apply Forall_fmap, Forall_forall. by intros m _ u.
Qed.

Lemma display_results_not_init_error user_list title :
  Forall not_init_error (display_results user_list title).
Proof.
  destruct user_list as [|x l]; unfold display_results.
  - by repeat constructor.
  - apply Forall_app. split; [by repeat constructor|].
    apply Forall_app. split; [|by repeat constructor].
    apply Forall_fmap, Forall_forall. by intros m _ u.
Qed.

Section MainProofs.

Variable server : list request → request → reply.
Variable csv_writerow : list string → string.

Lemma get_followers_raises fuel st e st' :
  get_followers server fuel st = (Raised e, st') →
  e = ConnectionError ∨ e = JSONDecodeError.
Proof.
  destruct (_followers (self st)) as [l|] eqn:Hc.
  { by rewrite (get_followers_cached _ _ _ l). }
  rewrite get_followers_uncached by done. unfold _get_paginated_data.
  destruct (paginate _ _ _ _ _ _) as [[data|e'|] st1] eqn:Hrun; [done| |done].
  intros [= -> ->]. by eapply paginate_raises.
Qed.

Lemma get_following_raises fuel st e st' :
  get_following server fuel st = (Raised e, st') →
  e = ConnectionError ∨ e = JSONDecodeError.
Proof.
  destruct (_following (self st)) as [l|] eqn:Hc.
  { by rewrite (get_following_cached _ _ _ l). }
  rewrite get_following_uncached by done. unfold _get_paginated_data.
  destruct (paginate _ _ _ _ _ _) as [[data|e'|] st1] eqn:Hrun; [done| |done].
  intros [= -> ->]. by eapply paginate_raises.
Qed.

Lemma find_raises fuel st e st' :
  find_non_followers server fuel st = (Raised e, st') ∨
  find_fans server fuel st = (Raised e, st') →
  e = ConnectionError ∨ e = JSONDecodeError.
Proof.
  unfold find_non_followers, find_fans, bind.
  destruct (get_following server fuel st) as [[following|e1|] st1] eqn:H1.
  - destruct (get_followers server fuel st1) as [[followers|e2|] st2] eqn:H2.
    + destruct following, followers; by intros [|].
    + intros [[= -> ->]|[= -> ->]]; by eapply get_followers_raises.
    + by intros [|].
  - intros [[= -> ->]|[= -> ->]]; by eapply get_following_raises.
  - by intros [|].
Qed.

Lemma save_cli_step u data suffix file_format st st' :
  save_to_file csv_writerow data (u +:+ suffix) file_format st = (Returned tt, st') →
  suffix = "_non_followers" ∨ suffix = "_fans" →
  cli_step u st st'.
Proof.
  intros Hsave Hsuffix.
  destruct (save_to_file_frame csv_writerow data (u +:+ suffix) file_format st)
    as (st1 & m & Hrun & Hself & Hsent & Hw & _ & Hfiles & _).
  rewrite Hsave in Hrun. injection Hrun as <-.
  split_and!; [by rewrite Hself|done| |].
  - exists []. by rewrite (right_id_L [] (++)).
  - intros path.
    destruct (decide (path = (u +:+ suffix) +:+ "." +:+ file_format)) as [->|Hne].
    + right. exists file_format. destruct Hsuffix as [-> | ->]; auto.
    + left. by apply Hfiles.
Qed.


Ltac terminal_eq := rewrite <- ?(assoc_L (++)); reflexivity.
Ltac lines_ok :=
  repeat match goal with
    | |- Forall _ (printed_since _ _) => apply printed_since_not_init_error
    | |- Forall _ (display_results _ _) => apply display_results_not_init_error
    | |- Forall _ (_ ++ _) => apply Forall_app_2
    | |- Forall _ [] => apply Forall_nil_2
    | |- Forall _ (_ :: _) => apply Forall_cons_2; [by intros ?|]
    end.

Lemma menu_loop_ok fuel u n :
  ∀ stdin st terminal,
    (length stdin ≤ n)%nat →
    username (self st) = u →
    menu_ok u stdin st terminal (menu_loop server csv_writerow fuel u stdin st terminal).
Proof.
  induction n as [|n IH]; intros stdin st terminal Hlen Hu;
    (destruct stdin as [|choice stdin];
     [eapply menu_ok_stop;
        [terminal_eq|lines_ok|apply cli_step_refl|unfold expected_end; auto|done|done]
     |]); [simpl in Hlen; lia|].
  cbn [length] in Hlen. cbn [menu_loop]. cbv zeta.
  assert (∀ st1, session_step st st1 → cli_step u st st1 ∧ username (self st1) = u
                 ∧ files st1 = files st) as Hfind.
  { intros st1 Hstep. split; [by apply session_step_cli_step|].
    destruct Hstep as (Hu1 & Hf1 & _). split; congruence. }
  case_bool_decide as Hc1; [|case_bool_decide as Hc2; [|case_bool_decide as Hc3]].
  - (* choice 1 *)
    pose proof (proj1 (find_step server fuel st)) as Hstep.
    destruct (find_non_followers server fuel st) as [[l|e|] st1] eqn:Hrun;
      cbn [snd] in Hstep; destruct (Hfind _ Hstep) as (Hcli & Hu1 & Hf1).
    + destruct l as [|x l].
      * eapply menu_ok_after; [apply IH; [lia|done]|terminal_eq|lines_ok|exact Hcli| ].
        intros Hno. split; [by apply Forall_cons in Hno as [_ ?]|done].
      * destruct stdin as [|answer stdin].
        { eapply menu_ok_stop;
            [terminal_eq|lines_ok|exact Hcli|unfold expected_end; auto|done|done]. }
        case_bool_decide as Hy.
        -- destruct stdin as [|fmt stdin].
           { eapply menu_ok_stop;
               [terminal_eq|lines_ok|exact Hcli|unfold expected_end; auto|done|done]. }
           destruct (save_to_file_frame csv_writerow (x :: l) (u +:+ "_non_followers")
                       (lower fmt) st1) as (st2 & m & Hsave & Hself2 & _).
           rewrite Hsave.
           eapply menu_ok_after;
             [apply IH; [simpl in Hlen; lia|congruence]|terminal_eq|lines_ok| | ].
           ++ eapply cli_step_trans; [exact Hcli|].
              eapply save_cli_step; [exact Hsave|by left].
           ++ intros Hno. apply Forall_cons in Hno as [_ Hno].
              by apply Forall_cons in Hno as [? _].
        -- eapply menu_ok_after;
             [apply IH; [simpl in Hlen; lia|done]|terminal_eq|lines_ok|exact Hcli| ].
           intros Hno. apply Forall_cons in Hno as [_ Hno].
           split; [by apply Forall_cons in Hno as [_ ?]|done].
    + eapply menu_ok_stop; [terminal_eq|lines_ok|exact Hcli| |done|done].
      destruct (find_raises fuel st e st1 (or_introl Hrun)) as [-> | ->];
        unfold expected_end; auto.
    + eapply menu_ok_stop;
        [terminal_eq|lines_ok|exact Hcli|unfold expected_end; auto|done|done].
  - (* choice 2 *)
    pose proof (proj2 (find_step server fuel st)) as Hstep.
    destruct (find_fans server fuel st) as [[l|e|] st1] eqn:Hrun;
      cbn [snd] in Hstep; destruct (Hfind _ Hstep) as (Hcli & Hu1 & Hf1).
    + destruct l as [|x l].
      * eapply menu_ok_after; [apply IH; [lia|done]|terminal_eq|lines_ok|exact Hcli| ].
        intros Hno. split; [by apply Forall_cons in Hno as [_ ?]|done].
      * destruct stdin as [|answer stdin].
        { eapply menu_ok_stop;
            [terminal_eq|lines_ok|exact Hcli|unfold expected_end; auto|done|done]. }
        case_bool_decide as Hy.
        -- destruct stdin as [|fmt stdin].
           { eapply menu_ok_stop;
               [terminal_eq|lines_ok|exact Hcli|unfold expected_end; auto|done|done]. }
           destruct (save_to_file_frame csv_writerow (x :: l) (u +:+ "_fans")
                       (lower fmt) st1) as (st2 & m & Hsave & Hself2 & _).
           rewrite Hsave.
           eapply menu_ok_after;
             [apply IH; [simpl in Hlen; lia|congruence]|terminal_eq|lines_ok| | ].
           ++ eapply cli_step_trans; [exact Hcli|].
              eapply save_cli_step; [exact Hsave|by right].
           ++ intros Hno. apply Forall_cons in Hno as [_ Hno].
              by apply Forall_cons in Hno as [? _].
        -- eapply menu_ok_after;
             [apply IH; [simpl in Hlen; lia|done]|terminal_eq|lines_ok|exact Hcli| ].
           intros Hno. apply Forall_cons in Hno as [_ Hno].
           split; [by apply Forall_cons in Hno as [_ ?]|done].
    + eapply menu_ok_stop; [terminal_eq|lines_ok|exact Hcli| |done|done].
      destruct (find_raises fuel st e st1 (or_intror Hrun)) as [-> | ->];
        unfold expected_end; auto.
    + eapply menu_ok_stop;
        [terminal_eq|lines_ok|exact Hcli|unfold expected_end; auto|done|done].
  - (* choice 3 *)
    eapply menu_ok_stop;
      [terminal_eq|lines_ok|apply cli_step_refl|unfold expected_end; auto|done|done].
  - eapply menu_ok_after;
      [apply IH; [lia|done]|terminal_eq|lines_ok|apply cli_step_refl| ].
    intros Hno. split; [by apply Forall_cons in Hno as [_ ?]|done].
Qed.


Lemma username_loop_spec stdin terminal :
  ∃ more, (username_loop stdin terminal).2 = terminal ++ more ∧
          Forall not_init_error more ∧
  match (username_loop stdin terminal).1 with
  | (None, _) => Forall (λ line, validate_username line = false) stdin
  | (Some u, rest) =>
      validate_username u = true ∧
      ∃ skipped, stdin = skipped ++ u :: rest ∧
                 Forall (λ line, validate_username line = false) skipped
  end.
Proof.
  revert terminal. induction stdin as [|line stdin IH]; intros terminal.
  - eexists. cbn [username_loop fst snd].
    split_and!; [reflexivity|lines_ok|done].
  - cbn [username_loop]. cbv zeta.
    destruct (validate_username line) eqn:Hline.
    + eexists. cbn [fst snd].
      split_and!; [reflexivity|lines_ok|done|by exists []].
    + destruct (IH ((terminal ++ [LinePrompt "Enter your GitHub username: "])
                      ++ [LineInvalidUsername])) as (more & Hout & Hmore & Hrest).
      eexists. split_and!.
      * rewrite Hout. terminal_eq.
      * lines_ok. exact Hmore.
      * destruct (username_loop stdin _) as [[[u|] rest] out]; cbn [fst] in *.
        -- destruct Hrest as (Hu & skipped & -> & Hskipped).
           split; [done|]. exists (line :: skipped). split; [done|].
           by constructor.
        -- by constructor.
Qed.

Lemma main_ok fuel stdin st :
  let r := main server csv_writerow fuel stdin st in
  match username_loop stdin [LineWelcome] with
  | (None, _, terminal) => r = (MainEOFError, st, terminal)
  | (Some u, rest, terminal) =>
      menu_ok u rest
        (set_self (λ _, {| username := u; _followers := None; _following := None |}) st)
        terminal r
  end.
Proof.
  cbv zeta. unfold main.
  destruct (username_loop_spec stdin [LineWelcome]) as (more & Hout & Hmore & Hspec).
  destruct (username_loop stdin [LineWelcome]) as [[[u|] rest] out]; cbn [fst snd] in *;
    [|done].
  destruct Hspec as (Hu & _). unfold __init__. rewrite Hu. cbn [negb].
  by apply (menu_loop_ok fuel u (length rest)).
Qed.


(** X22.  [main] sends no request until a line of input is a valid
    username: with no such line it ends at the end of the input in the
    world it started in; otherwise every request it sends is a page
    request to the two endpoints of the first valid line. *)
Theorem main_requests_only_for_accepted_username fuel stdin st :
  let r := main server csv_writerow fuel stdin st in
  (Forall (λ line, validate_username line = false) stdin →
     r.1 = (MainEOFError, st)) ∧
  (∀ skipped u rest,
     stdin = skipped ++ u :: rest →
     Forall (λ line, validate_username line = false) skipped →
     validate_username u = true →
     ∃ new, sent r.1.2 = sent st ++ new ∧ ∀ rq, rq ∈ new → own_request u rq).
Proof.
  cbv zeta. pose proof (main_ok fuel stdin st) as Hmain. cbv zeta in Hmain.
  destruct (username_loop_spec stdin [LineWelcome]) as (more & _ & _ & Hspec).
  destruct (username_loop stdin [LineWelcome]) as [[[u|] rest] out]; cbn [fst] in Hspec.
  - destruct Hspec as (Hu & skipped & -> & Hskipped). split.
    + intros Hall. apply Forall_app in Hall as [_ Hall].
      apply Forall_cons in Hall as [Hno _]. congruence.
    + intros skipped' u' rest' Heq Hskipped' Hu'.
      assert (skipped' = skipped ∧ u' = u) as [-> ->].
      { clear Hmain. revert skipped' Heq Hskipped'.
        induction Hskipped as [|x skipped Hx _ IH]; intros [|y skipped'] Heq Hsk.
        - by injection Heq as ->.
        - injection Heq as <- _. apply Forall_cons in Hsk as [? _]. congruence.
        - injection Heq as -> _. congruence.
        - injection Heq as -> Heq. apply Forall_cons in Hsk as [_ Hsk].
          by destruct (IH _ Heq Hsk) as [-> ->]. }
      destruct Hmain as ((_ & _ & (new & Hsent & Hnew) & _) & _).
      exists new. split; [exact Hsent|].
      intros rq Hrq. by apply (proj1 (Forall_forall _ _) Hnew).
  - split; [by rewrite Hmain|].
    intros skipped u rest' -> _ Hu.
    apply Forall_app in Hspec as [_ Hspec].
    apply Forall_cons in Hspec as [Hno _]. congruence.
Qed.

(** X23.  [main] writes only what it was asked to write: no file changes
    unless some line of input is [y] in either case, and a file that
    changes is a report file of a valid username from the input,
    [username_non_followers.format] or [username_fans.format]. *)
Theorem main_writes_only_asked_report_files fuel stdin st :
  let r := main server csv_writerow fuel stdin st in
  (Forall (λ line, lower line ≠ "y") stdin → files r.1.2 = files st) ∧
  (∀ path, files r.1.2 !! path ≠ files st !! path →
     ∃ u, u ∈ stdin ∧ validate_username u = true ∧ report_file u path).
Proof.
  cbv zeta. pose proof (main_ok fuel stdin st) as Hmain. cbv zeta in Hmain.
  destruct (username_loop_spec stdin [LineWelcome]) as (more & _ & _ & Hspec).
  destruct (username_loop stdin [LineWelcome]) as [[[u|] rest] out]; cbn [fst] in Hspec.
  - destruct Hspec as (Hu & skipped & -> & Hskipped).
    destruct Hmain as ((_ & _ & _ & Hfiles) & _ & _ & Hy). split.
    + intros Hall. apply Forall_app in Hall as [_ Hall].
      apply Forall_cons in Hall as [_ Hall]. exact (Hy Hall).
    + intros path Hpath. exists u. split_and!; [set_solver|done|].
      by destruct (Hfiles path) as [Heq|?]; [destruct Hpath|].
  - rewrite Hmain. cbn [fst snd]. by split.
Qed.

End MainProofs.

(** ** The preconditions are met *)

Lemma fetch_success_only_from_served_pages_witness :
  ∃ pages, accounts 0 2 = concat pages ∧ (length pages < 3)%nat.
Proof.
  destruct (fetch_success_only_from_served_pages
              (stub [ok_page (accounts 0 2); ok_page []]) 3
              "/users/octocat/followers" (new_session "octocat") (accounts 0 2)
              (_get_paginated_data (stub [ok_page (accounts 0 2); ok_page []]) 3
                 "/users/octocat/followers" (new_session "octocat")).2)
    as (pages & _ & _ & Hitems & Hlen & _).
  - vm_compute. reflexivity.
  - by exists pages.
Defined.

Lemma fetch_failure_only_from_http_error_witness :
  ∃ status, 400 ≤ status < 600.
Proof.
  destruct (fetch_failure_only_from_http_error
              (stub [ok_page (accounts 0 2); error_page 403]) 3
              "/users/octocat/followers" (new_session "octocat")
              (_get_paginated_data (stub [ok_page (accounts 0 2); error_page 403]) 3
                 "/users/octocat/followers" (new_session "octocat")).2)
    as (pages & status & _ & _ & Hstatus & _).
  - vm_compute. reflexivity.
  - by exists status.
Defined.


Lemma getter_returns_logins_in_order_witness :
  (get_followers (stub [ok_page (account <$> ["a"; "b"]); ok_page []]) 2
     (new_session "octocat")).1
  = Returned (Some ["a"; "b"]).
Proof.
  rewrite (proj1 (getter_returns_logins_in_order
                    (stub [ok_page (account <$> ["a"; "b"]); ok_page []])
                    (new_session "octocat") [account <$> ["a"; "b"]] 2
                    ltac:(simpl; lia))).
  - reflexivity.
  - reflexivity.
  - vm_compute. repeat split; discriminate.
Defined.


Lemma find_again_answers_from_cache_witness :
  let server := stub [ok_page (account <$> ["a"; "b"; "c"]); ok_page [];
                      ok_page (account <$> ["b"; "c"; "d"]); ok_page []] in
  let st' := (find_non_followers server 2 (new_session "octocat")).2 in
  (find_fans (stub []) 0 st').1 = Returned ["d"].
Proof.
  intros server st'.
  destruct (find_again_answers_from_cache server 2 (new_session "octocat") ["a"] st')
    as (l1 & l2 & H1 & H2 & Hagain).
  - left. vm_compute. reflexivity.
  - rewrite (proj2 (Hagain (stub []) 0%nat)). cbn [fst].
    vm_compute in H1, H2. by injection H1 as <-; injection H2 as <-.
Defined.

Lemma nobody_is_both_non_follower_and_fan_witness :
  "a" ∉ fans_of ["a"; "b"; "c"] ["b"; "c"; "d"].
Proof.
  apply nobody_is_both_non_follower_and_fan.
  apply (bool_decide_unpack _). vm_compute. exact I.
Defined.

Lemma difference_looks_at_membership_only_witness :
  non_followers_of ["a"; "c"] ["a"; "b"] = non_followers_of ["a"; "c"] ["b"; "a"; "a"].
Proof.
  apply (proj1 (difference_looks_at_membership_only
                  ["a"; "c"] ["a"; "c"] ["a"; "b"] ["b"; "a"; "a"])).
  intros x. rewrite !elem_of_cons, !elem_of_nil. tauto.
Defined.

Lemma save_unsupported_format_writes_nothing_witness :
  files (save_to_file (λ _, "") ["a"] "octocat_fans" "xml" (new_session "octocat")).2 = ∅.
Proof.
  rewrite save_unsupported_format_writes_nothing; [reflexivity|].
  apply (bool_decide_unpack _). vm_compute. exact I.
Defined.


Lemma save_empty_list_witness :
  files (save_to_file (λ _, "") [] "octocat_fans" "json" (new_session "octocat")).2
    !! "octocat_fans.json" = Some "[]".
Proof.
  apply (save_empty_list (λ _, "") "octocat_fans" "json" (new_session "octocat")).
  - apply not_elem_of_empty.
  - reflexivity.
Defined.

Lemma saved_txt_determines_the_list_witness :
  ["alice"; "bob-2"] = ["alice"; "bob-2"].
Proof.
  apply (saved_txt_determines_the_list (λ _, "") ["alice"; "bob-2"] ["alice"; "bob-2"]
           "octocat_fans" (new_session "octocat") (new_session "hubot")).
  - apply not_elem_of_empty.
  - apply not_elem_of_empty.
  - repeat constructor.
  - repeat constructor.
  - vm_compute. reflexivity.
Defined.

Lemma main_requests_only_for_accepted_username_witness :
  let server := stub [ok_page (account <$> ["a"]); ok_page []; ok_page []] in
  let r := main server (λ _, "") 2 ["-bad"; "octocat"; "1"; "n"; "3"]
             (new_session "") in
  ∃ new, sent r.1.2 = [] ++ new ∧ ∀ rq, rq ∈ new → own_request "octocat" rq.
Proof.
  intros server r.
  apply (proj2 (main_requests_only_for_accepted_username server (λ _, "") 2
                  ["-bad"; "octocat"; "1"; "n"; "3"] (new_session ""))
           ["-bad"] "octocat" ["1"; "n"; "3"]).
  - reflexivity.
  - repeat constructor.
  - reflexivity.
Defined.

Lemma main_writes_only_asked_report_files_witness :
  let server := stub [ok_page (account <$> ["a"]); ok_page []; ok_page []] in
  files (main server (λ _, "") 2 ["octocat"; "1"; "n"; "3"] (new_session "")).1.2 = ∅.
Proof.
  intros server.
  apply (proj1 (main_writes_only_asked_report_files server (λ _, "") 2
                  ["octocat"; "1"; "n"; "3"] (new_session ""))).
  repeat constructor; discriminate.
Defined.
